(** * Tool servers for Context7, Perplexity and BrightData

    A shallow embedding of the two server programs of the repository:

    - the per-provider servers of [src/server.ts] (three endpoints, each with
      its own "list tools" and "call tool" handler on the low-level protocol
      server), module [Sse];
    - the unified server (one endpoint, ten tools registered on a [McpServer]
      with schemas), module [Unified].

    JavaScript values, [JSON.stringify], the string methods the source calls
    and the effects of a tool callback (reading [process.env], one outbound
    [axios.post], a thrown [Error]) are modelled first. *)

From Stdlib Require Import String Ascii List ZArith Bool Lia DecimalString.
Import ListNotations.
Local Open Scope string_scope.
Set Warnings "-register-all".

(* ===================================================================== *)
(** ** JavaScript values and the built-ins the source uses *)
(* ===================================================================== *)

Module Js.

(** The values that travel through the servers: request arguments, upstream
    payloads and structured outputs. Numbers range over the integers; the only
    operations the source performs on a number are the truthiness test of
    [tokens || 5000] and serialization. An object keeps its properties in
    insertion order. [JFunction] stands for a built-in function, which a
    lookup in an object literal can reach through [Object.prototype]. *)
Inductive value : Type :=
| JUndefined
| JNull
| JBool (b : bool)
| JNum (n : Z)
| JStr (s : string)
| JArr (items : list value)
| JObj (fields : list (string * value))
| JFunction.

(** ToBoolean. *)
Definition truthy (v : value) : bool :=
  match v with
  | JUndefined | JNull => false
  | JBool b => b
  | JNum n => negb (n =? 0)%Z
  | JStr s => negb (s =? "")
  | JArr _ | JObj _ | JFunction => true
  end.

(** [a || b]. *)
Definition or_else (a b : value) : value := if truthy a then a else b.

(** Own-property lookup in an object literal or a parsed JSON object. *)
Fixpoint assoc {A : Type} (k : string) (l : list (string * A)) : option A :=
  match l with
  | [] => None
  | (k', v) :: r => if k' =? k then Some v else assoc k r
  end.

Definition quote_char : string := String (ascii_of_nat 34) "".
Definition backslash : string := String (ascii_of_nat 92) "".
Definition newline : string := String (ascii_of_nat 10) "".

(** *** String methods *)

(** [s.replace(pat, rep)] with a string pattern: the first occurrence only. *)
Fixpoint replace_first (pat rep s : string) : string :=
  if prefix pat s
  then rep ++ substring (String.length pat)
                        (String.length s - String.length pat) s
  else match s with
       | EmptyString => EmptyString
       | String c r => String c (replace_first pat rep r)
       end.

Definition is_upper (c : ascii) : bool :=
  let n := nat_of_ascii c in ((65 <=? n) && (n <=? 90))%nat.

(** [s.replace(/([A-Z])/g, ' $1')]: a space before every capital letter. *)
Fixpoint space_capitals (s : string) : string :=
  match s with
  | EmptyString => EmptyString
  | String c r =>
      if is_upper c then String " " (String c (space_capitals r))
      else String c (space_capitals r)
  end.

Definition is_space (c : ascii) : bool :=
  let n := nat_of_ascii c in ((n =? 32) || ((9 <=? n) && (n <=? 13)))%nat.

Fixpoint trim_start (s : string) : string :=
  match s with
  | EmptyString => EmptyString
  | String c r => if is_space c then trim_start r else s
  end.

Fixpoint rev_string (acc s : string) : string :=
  match s with
  | EmptyString => acc
  | String c r => rev_string (String c acc) r
  end.

(** [s.trim()]. *)
Definition trim (s : string) : string :=
  rev_string "" (trim_start (rev_string "" (trim_start s))).

(** *** JSON.stringify *)

Definition hex_digit (n : nat) : ascii :=
  nth n (list_ascii_of_string "0123456789abcdef") "0"%char.

(** One character of QuoteJSONString. Strings are byte strings here: a byte
    above 127 is copied unchanged. *)
Definition escape_char (c : ascii) : string :=
  let n := nat_of_ascii c in
  if (n =? 34)%nat then backslash ++ quote_char
  else if (n =? 92)%nat then backslash ++ backslash
  else if (n =? 8)%nat then backslash ++ "b"
  else if (n =? 9)%nat then backslash ++ "t"
  else if (n =? 10)%nat then backslash ++ "n"
  else if (n =? 12)%nat then backslash ++ "f"
  else if (n =? 13)%nat then backslash ++ "r"
  else if (n <? 32)%nat
       then backslash ++ "u00"
            ++ String (hex_digit (n / 16)) (String (hex_digit (n mod 16)) "")
  else String c "".

Fixpoint escape (s : string) : string :=
  match s with
  | EmptyString => EmptyString
  | String c r => escape_char c ++ escape r
  end.

Definition quote (s : string) : string := quote_char ++ escape s ++ quote_char.

(** Number to string, for integers: decimal notation. This is JavaScript's
    text for the integers a double represents exactly below 10^21 (all up to
    2^53 in absolute value); from 10^21 on JavaScript prints an exponent, and
    non-integer numbers are not modelled. No number the source itself writes
    leaves that range. *)
Definition number_to_string (n : Z) : string :=
  NilZero.string_of_int (Z.to_int n).

(** The bracketing step shared by SerializeJSONObject and SerializeJSONArray:
    [stepback] is the indentation of the enclosing level, [indent] the one of
    the members. *)
Definition wrap (opening closing gap stepback indent : string)
    (parts : list string) : string :=
  match parts with
  | [] => opening ++ closing
  | _ =>
      if gap =? ""
      then opening ++ String.concat "," parts ++ closing
      else opening ++ newline ++ indent
           ++ String.concat ("," ++ newline ++ indent) parts
           ++ newline ++ stepback ++ closing
  end.

(** SerializeJSONProperty: [None] is JavaScript's [undefined] (nothing to
    serialize). A property whose value is [undefined] or a function is left
    out of an object; such an array element is written [null]. *)
Fixpoint serialize (gap indent : string) (v : value) {struct v}
  : option string :=
  match v with
  | JUndefined | JFunction => None
  | JNull => Some "null"
  | JBool b => Some (if b then "true" else "false")
  | JNum n => Some (number_to_string n)
  | JStr s => Some (quote s)
  | JArr items =>
      let inner := indent ++ gap in
      let parts :=
        (fix elements (l : list value) : list string :=
           match l with
           | [] => []
           | x :: r =>
               match serialize gap inner x with
               | Some s => s
               | None => "null"
               end :: elements r
           end) items in
      Some (wrap "[" "]" gap indent inner parts)
  | JObj fields =>
      let inner := indent ++ gap in
      let parts :=
        (fix members (l : list (string * value)) : list string :=
           match l with
           | [] => []
           | p :: r =>
               match serialize gap inner (snd p) with
               | Some s =>
                   (quote (fst p) ++ ":" ++ (if gap =? "" then "" else " ") ++ s)
                   :: members r
               | None => members r
               end
           end) fields in
      Some (wrap "{" "}" gap indent inner parts)
  end.

(** [JSON.stringify(v)] and [JSON.stringify(v, null, 2)]. *)
Definition JSON_stringify (v : value) : option string := serialize "" "" v.
Definition JSON_stringify_2 (v : value) : option string := serialize "  " "" v.

(** A value of type [string | undefined] placed in a template literal or in a
    string-typed field. *)
Definition to_template (s : option string) : string :=
  match s with
  | Some x => x
  | None => "undefined"
  end.

End Js.

(* ===================================================================== *)
(** ** Effects of a handler: process configuration, one outbound call,
       thrown errors *)
(* ===================================================================== *)

Module Effects.
Import Js.

(** [process.env], restricted to the three credentials the servers read. A
    variable that is not set reads as [undefined] ([None]). *)
Record ProcessEnv : Type := {
  CONTEXT7_API_KEY : option string;
  PERPLEXITY_API_KEY : option string;
  BRIGHTDATA_API_TOKEN : option string
}.

(** The three provider groups, and the credential each one's tools read. *)
Inductive provider : Type :=
| Context7
| Perplexity
| BrightData.

Definition credential_name (p : provider) : string :=
  match p with
  | Context7 => "CONTEXT7_API_KEY"
  | Perplexity => "PERPLEXITY_API_KEY"
  | BrightData => "BRIGHTDATA_API_TOKEN"
  end.

Definition credential (p : provider) (env : ProcessEnv) : option string :=
  match p with
  | Context7 => CONTEXT7_API_KEY env
  | Perplexity => PERPLEXITY_API_KEY env
  | BrightData => BRIGHTDATA_API_TOKEN env
  end.

(** [!v] for [v : string | undefined]: unset or the empty string. *)
Definition falsy (v : option string) : bool :=
  match v with
  | None => true
  | Some s => s =? ""
  end.

(** What [axios.post(url, data, { headers })] sends. *)
Record http_request : Type := {
  url : string;
  data : value;
  headers : list (string * string)
}.

(** What the upstream provider does with a request: the promise resolves with
    a response whose [data] is given, or rejects with an error (transport
    failure, non-success status) carrying a message. *)
Inductive http_response : Type :=
| Resolved (response_data : value)
| Rejected (message : string).

Definition upstream : Type := http_request -> http_response.

(** What an observer of one request sees: outbound calls, and the entry of a
    registered tool callback (the call-count probe on adapters). *)
Inductive event : Type :=
| EvAdapter (tool : string)
| EvHttp (request : http_request).

(** A computation returns or throws an [Error] with a message. *)
Inductive outcome (A : Type) : Type :=
| Ret (a : A)
| Throw (message : string).
Arguments Ret {A} a.
Arguments Throw {A} message.

(** An [async] function body: given the upstream, an outcome and the events
    it caused, in order. *)
Definition M (A : Type) : Type := upstream -> outcome A * list event.

Definition ret {A : Type} (a : A) : M A := fun _ => (Ret a, []).

Definition throw {A : Type} (message : string) : M A :=
  fun _ => (Throw message, []).

Definition lift {A : Type} (o : outcome A) : M A := fun _ => (o, []).

Definition bind {A B : Type} (m : M A) (k : A -> M B) : M B :=
  fun up =>
    match m up with
    | (Ret a, t1) => let (r, t2) := k a up in (r, t1 ++ t2)%list
    | (Throw e, t1) => (Throw e, t1)
    end.

(** [try { m } catch (error) { handler(error.message) }]. *)
Definition try_catch {A : Type} (m : M A) (handler : string -> M A) : M A :=
  fun up =>
    match m up with
    | (Ret a, t1) => (Ret a, t1)
    | (Throw e, t1) => let (r, t2) := handler e up in (r, t1 ++ t2)%list
    end.

(** [(await axios.post(url, data, { headers })).data]. *)
Definition axios_post (u : string) (d : value) (h : list (string * string))
  : M value :=
  fun up =>
    let request := {| url := u; data := d; headers := h |} in
    match up request with
    | Resolved x => (Ret x, [EvHttp request])
    | Rejected e => (Throw e, [EvHttp request])
    end.

(** Property [k] of the object a request carries as its body. *)
Definition body_field (k : string) (request : http_request) : value :=
  match data request with
  | JObj fields =>
      match assoc k fields with
      | Some x => x
      | None => JUndefined
      end
  | _ => JUndefined
  end.

(** The outbound calls among the events. *)
Fixpoint requests (t : list event) : list http_request :=
  match t with
  | [] => []
  | EvHttp r :: t' => r :: requests t'
  | EvAdapter _ :: t' => requests t'
  end.

(** *** Property access, which throws on [undefined] and [null] *)

Definition single_quoted (s : string) : string := "'" ++ s ++ "'".

(** [v.k] for a property name [k] that no built-in prototype defines (every
    name the source reads is of this kind). *)
Definition get_prop (v : value) (k : string) : outcome value :=
  match v with
  | JUndefined =>
      Throw ("Cannot read properties of undefined (reading "
             ++ single_quoted k ++ ")")
  | JNull =>
      Throw ("Cannot read properties of null (reading "
             ++ single_quoted k ++ ")")
  | JObj fields =>
      Ret (match assoc k fields with Some x => x | None => JUndefined end)
  | JBool _ | JNum _ | JStr _ | JArr _ | JFunction => Ret JUndefined
  end.

(** [v[0]]. *)
Definition get_first (v : value) : outcome value :=
  match v with
  | JArr items => Ret (match items with x :: _ => x | [] => JUndefined end)
  | JStr s =>
      Ret (match s with String c _ => JStr (String c "") | _ => JUndefined end)
  | _ => get_prop v "0"
  end.

(** The property names every object literal inherits from
    [Object.prototype]. *)
Definition inherited_functions : list string :=
  ["constructor"; "hasOwnProperty"; "isPrototypeOf"; "propertyIsEnumerable";
   "toLocaleString"; "toString"; "valueOf"; "__defineGetter__";
   "__defineSetter__"; "__lookupGetter__"; "__lookupSetter__"].

(** [record[k]] on an object literal with string values: an own property, else
    what [Object.prototype] provides, else [undefined]. *)
Definition index_record (record : list (string * string)) (k : string)
  : value :=
  match assoc k record with
  | Some s => JStr s
  | None =>
      if existsb (String.eqb k) inherited_functions then JFunction
      else if k =? "__proto__" then JObj []
      else JUndefined
  end.

(** [d.choices[0].message.content], the answer in a chat completion
    payload [d]. *)
Definition first_choice_content (d : value) : outcome value :=
  match get_prop d "choices" with
  | Throw e => Throw e
  | Ret choices =>
      match get_first choices with
      | Throw e => Throw e
      | Ret choice =>
          match get_prop choice "message" with
          | Throw e => Throw e
          | Ret message => get_prop message "content"
          end
      end
  end.

(** The binding of [k] by a destructuring parameter [({ ..., k, ... })]. *)
Definition destructure (v : value) (k : string) : outcome value :=
  match v with
  | JUndefined =>
      Throw ("Cannot destructure property " ++ single_quoted k ++ " of "
             ++ single_quoted "undefined" ++ " as it is undefined.")
  | JNull =>
      Throw ("Cannot destructure property " ++ single_quoted k ++ " of "
             ++ single_quoted "null" ++ " as it is null.")
  | _ => get_prop v k
  end.

(** ToString, as a template literal applies it. *)
Fixpoint to_string (v : value) : string :=
  match v with
  | JUndefined => "undefined"
  | JNull => "null"
  | JBool b => if b then "true" else "false"
  | JNum n => number_to_string n
  | JStr s => s
  | JArr items =>
      String.concat ","
        ((fix each (l : list value) : list string :=
            match l with
            | [] => []
            | x :: r =>
                match x with
                | JUndefined | JNull => ""
                | _ => to_string x
                end :: each r
            end) items)
  | JObj _ => "[object Object]"
  | JFunction => "function () { [native code] }"
  end.

(** A [string | undefined] as a value. *)
Definition of_optional_string (s : option string) : value :=
  match s with
  | Some x => JStr x
  | None => JUndefined
  end.

(** *** Tool results *)

(** An entry of [content]; every entry the servers build has type ['text']. *)
Inductive content_item : Type :=
| Text (text : value).

(** The object a tool callback or call handler returns. An absent [isError]
    reads as [false]. *)
Record CallToolResult : Type := {
  content : list content_item;
  structuredContent : option value;
  isError : bool
}.

End Effects.

Declare Scope handler_scope.
Delimit Scope handler_scope with handler.
Notation "x <- m ;; k" := (Effects.bind m (fun x => k))
  (at level 61, m at next level, right associativity) : handler_scope.

(* ===================================================================== *)
(** ** Protocol responses *)
(* ===================================================================== *)

Module Protocol.
Import Js Effects.

(** Modelled from the spec: the protocol's envelope types are the SDK's, not
    under src/. The classifications of protocol-level errors the spec names:
    "method not found", "invalid params" and the generic internal error. *)
Inductive ErrorCode : Type :=
| MethodNotFound
| InvalidParams
| InternalError.

(** Modelled from the spec: the protocol response to an invocation is either
    a top-level protocol error with its classification, or a success envelope
    carrying the tool's result. *)
Inductive Response : Type :=
| ProtocolError (code : ErrorCode)
| ToolResponse (result : CallToolResult).

(** Modelled from the spec: the failure marker of a tool execution error, a
    human-readable message and the "is error" flag. *)
Definition failure (message : string) : CallToolResult :=
  {| content := [Text (JStr message)];
     structuredContent := None;
     isError := true |}.

(** Modelled from the spec: the protocol layer under a request handler of the
    low-level server is part of the SDK, not under src/. Per the error
    taxonomy, a result the handler returns travels in a successful protocol
    response, and a fault that escapes the handler is reported as a top-level
    protocol error with the generic internal-error classification. *)
Definition respond (o : outcome CallToolResult) : Response :=
  match o with
  | Ret result => ToolResponse result
  | Throw _ => ProtocolError InternalError
  end.

End Protocol.

(* ===================================================================== *)
(** ** Schemas *)
(* ===================================================================== *)

Module Zod.
Import Js.

(** The schema expressions the unified server writes: [z.string()],
    [z.string().url()], [z.number()], [z.any()], [z.enum([...])],
    [t.optional()], [z.array(t)] with or without [.max(n)], [z.object({...})].
    A raw shape [{ k: t, ... }] given as [inputSchema] or [outputSchema] is the
    field list of an object schema. The [.describe(...)] annotations carry no
    constraint and are left out. *)
Inductive ztype : Type :=
| ZString
| ZUrl
| ZNumber
| ZAny
| ZEnum (options : list string)
| ZOptional (t : ztype)
| ZArray (t : ztype) (max : option nat)
| ZObject (shape : list (string * ztype)).

Definition shape : Type := list (string * ztype).

(** The value of property [k] of an object's field list, [undefined] when
    absent. *)
Definition field (k : string) (fields : list (string * value)) : value :=
  match assoc k fields with
  | Some x => x
  | None => JUndefined
  end.

Section Validation.

(** The string-format test behind [.url()]: whether the string parses as a
    URL. *)
Variable is_url : string -> bool.

(** Modelled from the spec: the schema validation routine (the zod library the
    source imports) is not under src/. Per the data model and the dispatch
    algorithm, an argument mapping is checked against semantic type,
    optionality and constraints (enumerated values, array length bounds,
    string format); a type mismatch, a missing required field or a constraint
    violation rejects it. *)
Fixpoint accepts (t : ztype) (v : value) {struct t} : bool :=
  match t with
  | ZString => match v with JStr _ => true | _ => false end
  | ZUrl => match v with JStr s => is_url s | _ => false end
  | ZNumber => match v with JNum _ => true | _ => false end
  | ZAny => true
  | ZEnum options =>
      match v with
      | JStr s => existsb (String.eqb s) options
      | _ => false
      end
  | ZOptional t' =>
      match v with
      | JUndefined => true
      | _ => accepts t' v
      end
  | ZArray t' max =>
      match v with
      | JArr items =>
          forallb (accepts t') items
          && match max with
             | Some m => (List.length items <=? m)%nat
             | None => true
             end
      | _ => false
      end
  | ZObject fields_schema =>
      match v with
      | JObj fields =>
          (fix all_fields (l : list (string * ztype)) : bool :=
             match l with
             | [] => true
             | p :: r => accepts (snd p) (field (fst p) fields) && all_fields r
             end) fields_schema
      | _ => false
      end
  end.

End Validation.

End Zod.

(* ===================================================================== *)
(** ** The unified server: ten tools registered on one protocol server *)
(* ===================================================================== *)

Module Unified.
Import Js Effects Protocol Zod.
Local Open Scope handler_scope.

(** What [server.registerTool(name, config, callback)] is given. The callback
    reads [process.env] when it runs, so the environment is its first
    argument; the second is the argument object it destructures. *)
Record RegisteredTool : Type := {
  name : string;
  title : string;
  description : string;
  inputSchema : shape;
  outputSchema : shape;
  callback : ProcessEnv -> value -> M CallToolResult
}.

(** The result every callback returns on success: the text entry is the
    serialization of the structured output. *)
Definition success (text : option string) (output : value) : CallToolResult :=
  {| content := [Text (of_optional_string text)];
     structuredContent := Some output;
     isError := false |}.

(** *** Context7 tools (2 tools) *)

Definition resolve_library_id_callback (env : ProcessEnv) (args : value)
  : M CallToolResult :=
  libraryName <- lift (destructure args "libraryName") ;;
  let apiKey := CONTEXT7_API_KEY env in
  if falsy apiKey then throw "CONTEXT7_API_KEY not configured" else
  response_data <-
    axios_post "https://context7.upstash.io/api/v1/search"
      (JObj [("query", libraryName)])
      [("Authorization", "Bearer " ++ to_template apiKey)] ;;
  let output := JObj [("libraries", response_data)] in
  ret (success (JSON_stringify_2 output) output).

Definition resolve_library_id : RegisteredTool :=
  {| name := "mcp__context7__resolve-library-id";
     title := "Resolve Library ID";
     description := "Resolve a library name to a Context7-compatible library ID";
     inputSchema := [("libraryName", ZString)];
     outputSchema := [("libraries", ZArray ZAny None)];
     callback := resolve_library_id_callback |}.

Definition get_library_docs_callback (env : ProcessEnv) (args : value)
  : M CallToolResult :=
  context7CompatibleLibraryID <-
    lift (destructure args "context7CompatibleLibraryID") ;;
  topic <- lift (destructure args "topic") ;;
  tokens <- lift (destructure args "tokens") ;;
  let apiKey := CONTEXT7_API_KEY env in
  if falsy apiKey then throw "CONTEXT7_API_KEY not configured" else
  response_data <-
    axios_post "https://context7.upstash.io/api/v1/docs"
      (JObj [("libraryId", context7CompatibleLibraryID);
             ("topic", topic);
             ("maxTokens", or_else tokens (JNum 5000))])
      [("Authorization", "Bearer " ++ to_template apiKey)] ;;
  let output := JObj [("documentation", response_data)] in
  ret (success (JSON_stringify_2 output) output).

Definition get_library_docs : RegisteredTool :=
  {| name := "mcp__context7__get-library-docs";
     title := "Get Library Documentation";
     description := "Fetch documentation for a library using Context7";
     inputSchema := [("context7CompatibleLibraryID", ZString);
                     ("topic", ZOptional ZString);
                     ("tokens", ZOptional ZNumber)];
     outputSchema := [("documentation", ZAny)];
     callback := get_library_docs_callback |}.

(** *** Perplexity tools (4 tools) *)

Definition perplexityModels : list (string * string) :=
  [("perplexity_search", "sonar");
   ("perplexity_ask", "sonar-pro");
   ("perplexity_research", "sonar-deep-research");
   ("perplexity_reason", "sonar-reasoning-pro")].

Definition perplexity_callback (model : string) (env : ProcessEnv)
    (args : value) : M CallToolResult :=
  query <- lift (destructure args "query") ;;
  let apiKey := PERPLEXITY_API_KEY env in
  if falsy apiKey then throw "PERPLEXITY_API_KEY not configured" else
  response_data <-
    axios_post "https://api.perplexity.ai/chat/completions"
      (JObj [("model", JStr model);
             ("messages",
              JArr [JObj [("role", JStr "user"); ("content", query)]])])
      [("Authorization", "Bearer " ++ to_template apiKey);
       ("Content-Type", "application/json")] ;;
  answer <- lift (first_choice_content response_data) ;;
  let output := JObj [("response", answer)] in
  ret (success (JSON_stringify output) output).

(** The tool one iteration of
    [Object.entries(perplexityModels).forEach(([toolName, model]) => ...)]
    registers. *)
Definition perplexity_tool (entry : string * string) : RegisteredTool :=
  let (toolName, model) := entry in
  {| name := toolName;
     title :=
       trim (space_capitals (replace_first "perplexity_" "Perplexity " toolName));
     description :=
       replace_first "perplexity_" "" toolName ++ " using " ++ model ++ " model";
     inputSchema := [("query", ZString)];
     outputSchema := [("response", ZString)];
     callback := perplexity_callback model |}.

(** *** BrightData tools (4 tools) *)

Definition enum_engine : ztype := ZEnum ["google"; "bing"; "yandex"].

Definition search_engine_callback (env : ProcessEnv) (args : value)
  : M CallToolResult :=
  query <- lift (destructure args "query") ;;
  engine <- lift (destructure args "engine") ;;
  let apiToken := BRIGHTDATA_API_TOKEN env in
  if falsy apiToken then throw "BRIGHTDATA_API_TOKEN not configured" else
  let output :=
    JObj [("results",
           JArr [JStr ("Searched " ++ to_string (or_else engine (JStr "google"))
                       ++ " for: " ++ to_string query)])] in
  ret (success (JSON_stringify output) output).

Definition search_engine : RegisteredTool :=
  {| name := "mcp__brightdata__search_engine";
     title := "BrightData Search Engine";
     description := "Search engine SERP results (Google/Bing/Yandex)";
     inputSchema := [("query", ZString); ("engine", ZOptional enum_engine)];
     outputSchema := [("results", ZArray ZAny None)];
     callback := search_engine_callback |}.

Definition scrape_as_markdown_callback (env : ProcessEnv) (args : value)
  : M CallToolResult :=
  url <- lift (destructure args "url") ;;
  let apiToken := BRIGHTDATA_API_TOKEN env in
  if falsy apiToken then throw "BRIGHTDATA_API_TOKEN not configured" else
  let output :=
    JObj [("markdown", JStr ("Scraped content from " ++ to_string url))] in
  ret (success (JSON_stringify output) output).

Definition scrape_as_markdown : RegisteredTool :=
  {| name := "mcp__brightdata__scrape_as_markdown";
     title := "BrightData Scrape as Markdown";
     description := "Scrape webpage and convert to markdown";
     inputSchema := [("url", ZUrl)];
     outputSchema := [("markdown", ZString)];
     callback := scrape_as_markdown_callback |}.

Fixpoint map_outcome {A B : Type} (f : A -> outcome B) (l : list A)
  : outcome (list B) :=
  match l with
  | [] => Ret []
  | x :: r =>
      match f x with
      | Throw e => Throw e
      | Ret y =>
          match map_outcome f r with
          | Throw e => Throw e
          | Ret ys => Ret (y :: ys)
          end
      end
  end.

(** [v.map(f)] where the source names the receiver [receiver]: only an array
    has the method. *)
Definition array_map (receiver : string) (v : value)
    (f : value -> outcome value) : outcome value :=
  match v with
  | JArr items =>
      match map_outcome f items with
      | Ret ys => Ret (JArr ys)
      | Throw e => Throw e
      end
  | JUndefined =>
      Throw ("Cannot read properties of undefined (reading "
             ++ single_quoted "map" ++ ")")
  | JNull =>
      Throw ("Cannot read properties of null (reading "
             ++ single_quoted "map" ++ ")")
  | _ => Throw (receiver ++ ".map is not a function")
  end.

Definition scrape_batch_callback (env : ProcessEnv) (args : value)
  : M CallToolResult :=
  urls <- lift (destructure args "urls") ;;
  let apiToken := BRIGHTDATA_API_TOKEN env in
  if falsy apiToken then throw "BRIGHTDATA_API_TOKEN not configured" else
  results <-
    lift (array_map "urls" urls
            (fun url => Ret (JObj [("url", url); ("status", JStr "scraped")]))) ;;
  let output := JObj [("results", results)] in
  ret (success (JSON_stringify output) output).

Definition scrape_batch : RegisteredTool :=
  {| name := "mcp__brightdata__scrape_batch";
     title := "BrightData Batch Scrape";
     description := "Scrape multiple URLs";
     inputSchema := [("urls", ZArray ZUrl (Some 10%nat))];
     outputSchema := [("results", ZArray ZAny None)];
     callback := scrape_batch_callback |}.

Definition search_engine_batch_callback (env : ProcessEnv) (args : value)
  : M CallToolResult :=
  queries <- lift (destructure args "queries") ;;
  let apiToken := BRIGHTDATA_API_TOKEN env in
  if falsy apiToken then throw "BRIGHTDATA_API_TOKEN not configured" else
  results <-
    lift (array_map "queries" queries
            (fun q =>
               match get_prop q "query" with
               | Throw e => Throw e
               | Ret q_query =>
                   match get_prop q "engine" with
                   | Throw e => Throw e
                   | Ret q_engine =>
                       Ret (JObj [("query", q_query);
                                  ("engine", or_else q_engine (JStr "google"))])
                   end
               end)) ;;
  let output := JObj [("results", results)] in
  ret (success (JSON_stringify output) output).

Definition search_engine_batch : RegisteredTool :=
  {| name := "mcp__brightdata__search_engine_batch";
     title := "BrightData Batch Search";
     description := "Batch search engine queries";
     inputSchema :=
       [("queries",
         ZArray (ZObject [("query", ZString); ("engine", ZOptional enum_engine)])
                (Some 10%nat))];
     outputSchema := [("results", ZArray ZAny None)];
     callback := search_engine_batch_callback |}.

(** *** The protocol server and its registry *)

(** Modelled from the spec: the [McpServer] class of the protocol SDK is not
    under src/. Per the component design, the server instance holds the
    registry of tool descriptors; registering adds a descriptor, the
    enumeration returns all of them and the lookup maps a tool name to its
    descriptor and adapter. The registry is kept in registration order. *)
Definition McpServer : Type := list RegisteredTool.

(** Modelled from the spec: a server instance starts with an empty
    registry. *)
Definition new_McpServer : McpServer := [].

(** Modelled from the spec: registering adds the descriptor and its adapter
    to the registry. *)
Definition registerTool (server : McpServer) (tool : RegisteredTool)
  : McpServer :=
  (server ++ [tool])%list.

(** Modelled from the spec: the lookup maps a tool name to its descriptor and
    adapter, and fails when the name is absent. *)
Fixpoint lookup (server : McpServer) (tool_name : string)
  : option RegisteredTool :=
  match server with
  | [] => None
  | t :: r => if name t =? tool_name then Some t else lookup r tool_name
  end.

(** What a "list tools" query shows of a registered tool. *)
Record ToolDescriptor : Type := {
  d_name : string;
  d_title : string;
  d_description : string;
  d_inputSchema : shape;
  d_outputSchema : shape
}.

Definition descriptor (t : RegisteredTool) : ToolDescriptor :=
  {| d_name := name t;
     d_title := title t;
     d_description := description t;
     d_inputSchema := inputSchema t;
     d_outputSchema := outputSchema t |}.

(** Modelled from the spec: the enumeration returns all descriptors of the
    registry. *)
Definition listTools (server : McpServer) : list ToolDescriptor :=
  map descriptor server.

(** The three registration blocks of the request handler, in source order. *)
Definition register_context7 (server : McpServer) : McpServer :=
  registerTool (registerTool server resolve_library_id) get_library_docs.

Definition register_perplexity (server : McpServer) : McpServer :=
  fold_left (fun s entry => registerTool s (perplexity_tool entry))
            perplexityModels server.

Definition register_brightdata (server : McpServer) : McpServer :=
  registerTool
    (registerTool
       (registerTool (registerTool server search_engine) scrape_as_markdown)
       scrape_batch)
    search_engine_batch.

(** The server the handler of [POST /mcp] builds for a request. Nothing of the
    request or of the environment enters the construction. *)
Definition build_server : McpServer :=
  register_brightdata (register_perplexity (register_context7 new_McpServer)).

(** The tools each block registers: the three provider groups. *)
Definition context7_tools : list RegisteredTool :=
  register_context7 new_McpServer.
Definition perplexity_tools : list RegisteredTool :=
  register_perplexity new_McpServer.
Definition brightdata_tools : list RegisteredTool :=
  register_brightdata new_McpServer.

Definition group (p : provider) : list RegisteredTool :=
  match p with
  | Context7 => context7_tools
  | Perplexity => perplexity_tools
  | BrightData => brightdata_tools
  end.

(** *** Dispatch of one invocation *)

Section Dispatch.

Variable is_url : string -> bool.

(** Modelled from the spec: the dispatch of [McpServer] is not under src/. The
    dispatch algorithm of the spec: (1) look the tool name up in the registry,
    an unknown name is a "method not found" failure; (2) validate the argument
    mapping against the tool's input schema, a violation is an "invalid
    params" failure and no adapter is invoked; (3) invoke the matching
    adapter; its result, or its failure as a success-shaped response marked
    "is error", is the response. The adapter's entry is recorded for the
    call-count probe. *)
Definition callTool (server : McpServer) (env : ProcessEnv)
    (tool_name : string) (args : value) (up : upstream)
  : Response * list event :=
  match lookup server tool_name with
  | None => (ProtocolError MethodNotFound, [])
  | Some tool =>
      if accepts is_url (ZObject (inputSchema tool)) args
      then
        let (o, t) := callback tool env args up in
        (ToolResponse match o with
                      | Ret result => result
                      | Throw message => failure message
                      end,
         EvAdapter tool_name :: t)
      else (ProtocolError InvalidParams, [])
  end.

(** One protocol request, as the transport hands it to the server: a "list
    tools" query or the invocation of a tool by name. *)
Inductive Request : Type :=
| ListTools
| CallTool (tool_name : string) (args : value).

Inductive Reply : Type :=
| Listing (tools : list ToolDescriptor)
| Called (response : Response).

(** The handler of [POST /mcp]: a server is built and the ten tools are
    registered for this request alone, then the request is handed to it
    ([transport.handleRequest], which reaches the enumeration or the dispatch
    above). *)
Definition post_mcp (env : ProcessEnv) (request : Request) (up : upstream)
  : Reply * list event :=
  let server := build_server in
  match request with
  | ListTools => (Listing (listTools server), [])
  | CallTool tool_name args =>
      let (response, t) := callTool server env tool_name args up in
      (Called response, t)
  end.

End Dispatch.

End Unified.

(* ===================================================================== *)
(** ** The per-provider servers of src/server.ts *)
(* ===================================================================== *)

Module Sse.
Import Js Effects Protocol.
Local Open Scope handler_scope.

(** The names and descriptions each endpoint's "list tools" handler
    advertises. *)
Definition context7_list : list (string * string) :=
  [("mcp__context7__resolve-library-id",
    "Resolve a library name to a Context7-compatible library ID");
   ("mcp__context7__get-library-docs",
    "Fetch documentation for a library using Context7")].

Definition perplexity_list : list (string * string) :=
  [("perplexity_search", "Direct web search using Perplexity Search API");
   ("perplexity_ask", "General-purpose conversational AI with sonar-pro model");
   ("perplexity_research", "Deep research using sonar-deep-research model");
   ("perplexity_reason", "Advanced reasoning using sonar-reasoning-pro model")].

Definition brightdata_list : list (string * string) :=
  [("mcp__brightdata__search_engine", "Search engine SERP results");
   ("mcp__brightdata__scrape_as_markdown", "Scrape webpage as markdown");
   ("mcp__brightdata__scrape_batch", "Scrape multiple URLs");
   ("mcp__brightdata__search_engine_batch", "Batch search queries")].

(** The result a handler returns when its [try] block completes. *)
Definition text_result (text : value) : CallToolResult :=
  {| content := [Text text]; structuredContent := None; isError := false |}.

(** The result the [catch (error)] block of each handler returns for an
    error with the given message. *)
Definition error_result (message : string) : CallToolResult :=
  {| content := [Text (JStr ("Error: " ++ message))];
     structuredContent := None;
     isError := true |}.

(** The "call tool" handler of [GET /context7]; [name] and [args] are
    [request.params.name] and [request.params.arguments]. *)
Definition context7_call (env : ProcessEnv) (name : string) (args : value)
  : M CallToolResult :=
  try_catch
    (let apiKey := CONTEXT7_API_KEY env in
     if falsy apiKey then throw "CONTEXT7_API_KEY not configured" else
     if name =? "mcp__context7__resolve-library-id" then
       libraryName <- lift (get_prop args "libraryName") ;;
       response_data <-
         axios_post "https://context7.upstash.io/api/v1/search"
           (JObj [("query", libraryName)])
           [("Authorization", "Bearer " ++ to_template apiKey)] ;;
       ret (text_result (of_optional_string (JSON_stringify_2 response_data)))
     else if name =? "mcp__context7__get-library-docs" then
       libraryId <- lift (get_prop args "context7CompatibleLibraryID") ;;
       topic <- lift (get_prop args "topic") ;;
       tokens <- lift (get_prop args "tokens") ;;
       response_data <-
         axios_post "https://context7.upstash.io/api/v1/docs"
           (JObj [("libraryId", libraryId);
                  ("topic", topic);
                  ("maxTokens", or_else tokens (JNum 5000))])
           [("Authorization", "Bearer " ++ to_template apiKey)] ;;
       ret (text_result (of_optional_string (JSON_stringify_2 response_data)))
     else throw ("Unknown tool: " ++ name))
    (fun message => ret (error_result message)).

Definition modelMap : list (string * string) :=
  [("perplexity_search", "sonar");
   ("perplexity_ask", "sonar-pro");
   ("perplexity_research", "sonar-deep-research");
   ("perplexity_reason", "sonar-reasoning-pro")].

(** The "call tool" handler of [GET /perplexity]. *)
Definition perplexity_call (env : ProcessEnv) (name : string) (args : value)
  : M CallToolResult :=
  try_catch
    (let apiKey := PERPLEXITY_API_KEY env in
     if falsy apiKey then throw "PERPLEXITY_API_KEY not configured" else
     let model := index_record modelMap name in
     if negb (truthy model) then throw ("Unknown tool: " ++ name) else
     query <- lift (get_prop args "query") ;;
     response_data <-
       axios_post "https://api.perplexity.ai/chat/completions"
         (JObj [("model", model);
                ("messages",
                 JArr [JObj [("role", JStr "user"); ("content", query)]])])
         [("Authorization", "Bearer " ++ to_template apiKey);
          ("Content-Type", "application/json")] ;;
     answer <- lift (first_choice_content response_data) ;;
     ret (text_result answer))
    (fun message => ret (error_result message)).

(** The "call tool" handler of [GET /brightdata]: a placeholder that performs
    no upstream call. *)
Definition brightdata_call (env : ProcessEnv) (name : string) (args : value)
  : M CallToolResult :=
  try_catch
    (let apiToken := BRIGHTDATA_API_TOKEN env in
     if falsy apiToken then throw "BRIGHTDATA_API_TOKEN not configured" else
     ret (text_result
            (JStr ("BrightData tool " ++ name ++ " would be called with: "
                   ++ to_template (JSON_stringify args)))))
    (fun message => ret (error_result message)).

(** The handler behind each provider's endpoint. *)
Definition call (p : provider)
  : ProcessEnv -> string -> value -> M CallToolResult :=
  match p with
  | Context7 => context7_call
  | Perplexity => perplexity_call
  | BrightData => brightdata_call
  end.

End Sse.

(* ===================================================================== *)
(** ** What the per-provider endpoints advertise *)
(* ===================================================================== *)

Module Advertised.
Import Js Effects Zod.

(** The objects the three "list tools" handlers of src/server.ts return. *)
Definition context7_ListTools : value :=
  JObj [("tools", JArr [
    JObj [("name", JStr "mcp__context7__resolve-library-id");
          ("description",
           JStr "Resolve a library name to a Context7-compatible library ID");
          ("inputSchema", JObj [
             ("type", JStr "object");
             ("properties", JObj [
                ("libraryName", JObj [
                   ("type", JStr "string");
                   ("description", JStr "Library name to search for")])]);
             ("required", JArr [JStr "libraryName"])])];
    JObj [("name", JStr "mcp__context7__get-library-docs");
          ("description",
           JStr "Fetch documentation for a library using Context7");
          ("inputSchema", JObj [
             ("type", JStr "object");
             ("properties", JObj [
                ("context7CompatibleLibraryID", JObj [
                   ("type", JStr "string");
                   ("description",
                    JStr "Context7-compatible library ID (e.g., /org/project)")]);
                ("topic", JObj [
                   ("type", JStr "string");
                   ("description", JStr "Optional topic to focus on")]);
                ("tokens", JObj [
                   ("type", JStr "number");
                   ("description",
                    JStr "Maximum tokens to retrieve (default: 5000)")])]);
             ("required", JArr [JStr "context7CompatibleLibraryID"])])]])].

(** One entry of the research endpoint's list: the four differ in name,
    description and the description of [query]. *)
Definition query_tool (name description query_description : string) : value :=
  JObj [("name", JStr name);
        ("description", JStr description);
        ("inputSchema", JObj [
           ("type", JStr "object");
           ("properties", JObj [
              ("query", JObj [("type", JStr "string");
                              ("description", JStr query_description)])]);
           ("required", JArr [JStr "query"])])].

Definition perplexity_ListTools : value :=
  JObj [("tools", JArr [
    query_tool "perplexity_search"
      "Direct web search using Perplexity Search API" "Search query";
    query_tool "perplexity_ask"
      "General-purpose conversational AI with sonar-pro model"
      "Question to ask";
    query_tool "perplexity_research"
      "Deep research using sonar-deep-research model" "Research topic";
    query_tool "perplexity_reason"
      "Advanced reasoning using sonar-reasoning-pro model"
      "Problem to analyze"])].

Definition brightdata_ListTools : value :=
  JObj [("tools", JArr [
    JObj [("name", JStr "mcp__brightdata__search_engine");
          ("description", JStr "Search engine SERP results");
          ("inputSchema", JObj [
             ("type", JStr "object");
             ("properties", JObj [
                ("query", JObj [("type", JStr "string");
                                ("description", JStr "Search query")]);
                ("engine", JObj [
                   ("type", JStr "string");
                   ("enum", JArr [JStr "google"; JStr "bing"; JStr "yandex"]);
                   ("default", JStr "google")])]);
             ("required", JArr [JStr "query"])])];
    JObj [("name", JStr "mcp__brightdata__scrape_as_markdown");
          ("description", JStr "Scrape webpage as markdown");
          ("inputSchema", JObj [
             ("type", JStr "object");
             ("properties", JObj [
                ("url", JObj [("type", JStr "string");
                              ("format", JStr "uri");
                              ("description", JStr "URL to scrape")])]);
             ("required", JArr [JStr "url"])])];
    JObj [("name", JStr "mcp__brightdata__scrape_batch");
          ("description", JStr "Scrape multiple URLs");
          ("inputSchema", JObj [
             ("type", JStr "object");
             ("properties", JObj [
                ("urls", JObj [("type", JStr "array");
                               ("items", JObj [("type", JStr "string")]);
                               ("maxItems", JNum 10)])]);
             ("required", JArr [JStr "urls"])])];
    JObj [("name", JStr "mcp__brightdata__search_engine_batch");
          ("description", JStr "Batch search queries");
          ("inputSchema", JObj [
             ("type", JStr "object");
             ("properties", JObj [
                ("queries", JObj [("type", JStr "array");
                                  ("items", JObj [("type", JStr "object")]);
                                  ("maxItems", JNum 10)])]);
             ("required", JArr [JStr "queries"])])]])].

Definition ListTools (p : provider) : value :=
  match p with
  | Context7 => context7_ListTools
  | Perplexity => perplexity_ListTools
  | BrightData => brightdata_ListTools
  end.

(** *** Reading a listing *)

(** [v.k] on a value known not to be [null] or [undefined]. *)
Definition prop (k : string) (v : value) : value :=
  match v with
  | JObj fields => field k fields
  | _ => JUndefined
  end.

(** [Object.entries(v)] of an object. *)
Definition entries (v : value) : list (string * value) :=
  match v with
  | JObj fields => fields
  | _ => []
  end.

Definition elements (v : value) : list value :=
  match v with
  | JArr items => items
  | _ => []
  end.

(** The part of an advertised tool a client relies on to build a call: its
    name, the argument names, which of them are required, and the declared
    array bounds. *)
Record signature : Type := {
  sig_name : value;
  sig_arguments : list string;
  sig_required : list value;
  sig_bounds : list (string * value)
}.

Fixpoint json_bounds (properties : list (string * value))
  : list (string * value) :=
  match properties with
  | [] => []
  | (k, s) :: r =>
      match prop "maxItems" s with
      | JUndefined => json_bounds r
      | n => (k, n) :: json_bounds r
      end
  end.

Definition advertised_signature (tool : value) : signature :=
  let schema := prop "inputSchema" tool in
  {| sig_name := prop "name" tool;
     sig_arguments := map fst (entries (prop "properties" schema));
     sig_required := elements (prop "required" schema);
     sig_bounds := json_bounds (entries (prop "properties" schema)) |}.

Definition is_optional (t : ztype) : bool :=
  match t with
  | ZOptional _ => true
  | _ => false
  end.

Fixpoint zod_bounds (s : shape) : list (string * value) :=
  match s with
  | [] => []
  | (k, ZArray _ (Some n)) :: r => (k, JNum (Z.of_nat n)) :: zod_bounds r
  | _ :: r => zod_bounds r
  end.

(** The same reading of a tool registered on the unified server. *)
Definition registered_signature (tool : Unified.RegisteredTool) : signature :=
  {| sig_name := JStr (Unified.name tool);
     sig_arguments := map fst (Unified.inputSchema tool);
     sig_required :=
       map (fun kt => JStr (fst kt))
           (filter (fun kt => negb (is_optional (snd kt)))
                   (Unified.inputSchema tool));
     sig_bounds := zod_bounds (Unified.inputSchema tool) |}.

End Advertised.

(* ===================================================================== *)
(** ** The last-resort error response of the unified endpoint *)
(* ===================================================================== *)

Module Transport.
Import Js Effects.



End Transport.

(* ===================================================================== *)
(** ** Sample configurations and upstreams *)
(* ===================================================================== *)

Module Samples.
Import Js Effects.

(** All three credentials configured. *)
Definition env_full : ProcessEnv :=
  {| CONTEXT7_API_KEY := Some "ctx7-key";
     PERPLEXITY_API_KEY := Some "pplx-key";
     BRIGHTDATA_API_TOKEN := Some "bd-token" |}.

(** No credential configured. *)
Definition env_empty : ProcessEnv :=
  {| CONTEXT7_API_KEY := None;
     PERPLEXITY_API_KEY := None;
     BRIGHTDATA_API_TOKEN := None |}.

(** Only the documentation provider's credential configured. *)
Definition env_context7_only : ProcessEnv :=
  {| CONTEXT7_API_KEY := Some "ctx7-key";
     PERPLEXITY_API_KEY := None;
     BRIGHTDATA_API_TOKEN := None |}.

(** An upstream that answers every request with a chat completion. *)
Definition up_chat : upstream :=
  fun _ =>
    Resolved
      (JObj [("choices",
              JArr [JObj [("message",
                           JObj [("role", JStr "assistant");
                                 ("content", JStr "42")])]])]).

(** An upstream that answers every request with an object holding a list of
    results. *)
Definition up_results_object : upstream :=
  fun _ => Resolved (JObj [("results", JArr [])]).

(** An upstream that answers every request with a chat completion whose
    answer is not a string. *)
Definition up_null_answer : upstream :=
  fun _ =>
    Resolved
      (JObj [("choices",
              JArr [JObj [("message", JObj [("content", JNull)])]])]).

(** An upstream that fails every request. *)
Definition up_down : upstream :=
  fun _ => Rejected "Request failed with status code 503".

(** A URL test that accepts the strings starting with a scheme. *)
Definition has_scheme (s : string) : bool :=
  prefix "http://" s || prefix "https://" s.

Definition ten_urls : list value :=
  map (fun n => JStr ("https://example.com/" ++ number_to_string (Z.of_nat n)))
      (seq 1 10).

Definition eleven_urls : list value :=
  map (fun n => JStr ("https://example.com/" ++ number_to_string (Z.of_nat n)))
      (seq 1 11).

End Samples.

(* ===================================================================== *)
(** ** Properties *)
(* ===================================================================== *)

Import Js Effects Protocol Zod.

(** *** Sample runs *)

Example stringify_array :
  JSON_stringify (JArr [JNum 1; JUndefined; JBool true; JArr []])
  = Some "[1,null,true,[]]".
Proof. reflexivity. Qed.

Example stringify_skips_undefined_property :
  JSON_stringify (JObj [("response", JUndefined)]) = Some "{}".
Proof. reflexivity. Qed.

Example research_titles :
  map (fun entry => Unified.title (Unified.perplexity_tool entry))
      Unified.perplexityModels
  = ["Perplexity search"; "Perplexity ask"; "Perplexity research";
     "Perplexity reason"].
Proof. reflexivity. Qed.

Example research_descriptions :
  map (fun entry => Unified.description (Unified.perplexity_tool entry))
      Unified.perplexityModels
  = ["search using sonar model"; "ask using sonar-pro model";
     "research using sonar-deep-research model";
     "reason using sonar-reasoning-pro model"].
Proof. reflexivity. Qed.

Example markdown_stub :
  Unified.callback Unified.scrape_as_markdown Samples.env_full
    (JObj [("url", JStr "https://example.com/")]) Samples.up_down
  = (Ret (Unified.success
            (JSON_stringify
               (JObj [("markdown",
                       JStr "Scraped content from https://example.com/")]))
            (JObj [("markdown",
                    JStr "Scraped content from https://example.com/")])),
     []).
Proof. reflexivity. Qed.

Example research_upstream_down :
  fst (Sse.perplexity_call Samples.env_full "perplexity_ask"
         (JObj [("query", JStr "why is the sky blue")]) Samples.up_down)
  = Ret (Sse.error_result "Request failed with status code 503").
Proof. reflexivity. Qed.

Example research_answer_missing :
  fst (Unified.callTool Samples.has_scheme Unified.build_server
         Samples.env_full "perplexity_ask"
         (JObj [("query", JStr "why is the sky blue")])
         Samples.up_results_object)
  = ToolResponse
      (failure "Cannot read properties of undefined (reading '0')").
Proof. reflexivity. Qed.

Example inherited_name_reaches_upstream :
  index_record Sse.modelMap "constructor" = JFunction
  /\ List.length
       (requests (snd (Sse.perplexity_call Samples.env_full "constructor"
                         (JObj [("query", JStr "q")]) Samples.up_chat)))
     = 1%nat.
Proof. split; reflexivity. Qed.

(** *** Running a handler body *)

Ltac run :=
  cbv [Effects.bind Effects.lift Effects.throw Effects.ret Effects.try_catch
       Effects.axios_post].

Lemma destructure_defined (args : value) (k : string) :
  args <> JUndefined -> args <> JNull ->
  destructure args k = get_prop args k
  /\ exists v, get_prop args k = Ret v.
Proof.
  intros Hu Hn. destruct args; try congruence; simpl; eauto.
Qed.

(** *** The provider groups *)

Lemma group_cases (p : provider) (tool : Unified.RegisteredTool) :
  In tool (Unified.group p) ->
  match p with
  | Context7 =>
      tool = Unified.resolve_library_id \/ tool = Unified.get_library_docs
  | Perplexity =>
      exists entry, In entry Unified.perplexityModels
                    /\ tool = Unified.perplexity_tool entry
  | BrightData =>
      tool = Unified.search_engine \/ tool = Unified.scrape_as_markdown
      \/ tool = Unified.scrape_batch \/ tool = Unified.search_engine_batch
  end.
Proof.
  destruct p; cbn -[Unified.perplexity_tool]; intros H.
  - destruct H as [H | [H | []]]; auto.
  - destruct H as [H | [H | [H | [H | []]]]]; subst tool;
      eexists; (split; [ | reflexivity]); simpl; auto.
  - destruct H as [H | [H | [H | [H | []]]]]; auto.
Qed.

(** *** Credentials *)

Ltac unfold_callbacks :=
  cbv [Unified.callback Unified.perplexity_tool Unified.resolve_library_id
       Unified.get_library_docs Unified.search_engine
       Unified.scrape_as_markdown Unified.scrape_batch
       Unified.search_engine_batch
       Unified.resolve_library_id_callback Unified.get_library_docs_callback
       Unified.perplexity_callback Unified.search_engine_callback
       Unified.scrape_as_markdown_callback Unified.scrape_batch_callback
       Unified.search_engine_batch_callback].

Ltac unfold_handlers :=
  cbv [Sse.call Sse.context7_call Sse.perplexity_call Sse.brightdata_call].

(** Case analysis over the tools of a group. *)
Ltac each_tool H :=
  apply group_cases in H;
  match type of H with
  | match ?p with _ => _ end => destruct p
  end;
  [ destruct H as [H | H]
  | destruct H as [[toolName model] [_ H]]
  | destruct H as [H | [H | [H | H]]] ];
  subst.

(** Without its credential a callback does nothing but throw. *)
Lemma callback_without_credential (p : provider)
    (tool : Unified.RegisteredTool) (env : ProcessEnv) (args : value)
    (up : upstream) :
  In tool (Unified.group p) ->
  falsy (credential p env) = true ->
  snd (Unified.callback tool env args up) = []
  /\ (args <> JUndefined -> args <> JNull ->
      fst (Unified.callback tool env args up)
      = Throw (credential_name p ++ " not configured")).
Proof.
  intros Hin Hcred.
  each_tool Hin; simpl in Hcred; split;
    unfold_callbacks; run;
    destruct args; simpl; rewrite ?Hcred; try reflexivity;
    intros; congruence.
Qed.

(** Without its credential a handler returns the error result at once. *)
Lemma handler_without_credential (p : provider) (env : ProcessEnv)
    (name : string) (args : value) (up : upstream) :
  falsy (credential p env) = true ->
  Sse.call p env name args up
  = (Ret (Sse.error_result (credential_name p ++ " not configured")), []).
Proof.
  intros Hcred. destruct p; simpl in Hcred; unfold_handlers; run;
    rewrite Hcred; reflexivity.
Qed.

(** C2. Every callback of the unified server checks its provider's credential
    before anything else it does with the outside: when the credential is
    unset (or empty) the callback causes no event at all, in particular no
    upstream request, whatever the arguments, and on an argument object it
    throws the error naming the missing credential. The per-provider handlers
    behave alike: no event, and the error result naming the credential. *)
Theorem missing_credential_short_circuits :
  forall (p : provider) (tool : Unified.RegisteredTool) (env : ProcessEnv)
         (name : string) (args : value) (up : upstream),
    In tool (Unified.group p) ->
    falsy (credential p env) = true ->
    snd (Unified.callback tool env args up) = []
    /\ (args <> JUndefined -> args <> JNull ->
        fst (Unified.callback tool env args up)
        = Throw (credential_name p ++ " not configured"))
    /\ Sse.call p env name args up
       = (Ret (Sse.error_result (credential_name p ++ " not configured")), []).
Proof.
  intros p tool env name args up Hin Hcred.
  destruct (callback_without_credential p tool env args up Hin Hcred)
    as [Hquiet Hthrows].
  repeat split; auto using handler_without_credential.
Qed.

Lemma missing_credential_short_circuits_witness :
  snd (Unified.callback Unified.resolve_library_id Samples.env_empty
         (JObj [("libraryName", JStr "react")]) Samples.up_chat) = [].
Proof.
  refine (proj1 (missing_credential_short_circuits
                   Context7 Unified.resolve_library_id Samples.env_empty
                   "mcp__context7__resolve-library-id"
                   (JObj [("libraryName", JStr "react")]) Samples.up_chat
                   _ _)).
  - simpl. auto.
  - reflexivity.
Defined.

(** C9. The outcome of a tool callback, together with the events it causes,
    is a function of the arguments, the upstream and the credential of the
    tool's own provider group: two environments that agree on that credential
    give the same outcome, whatever the other two credentials are. *)
Theorem result_depends_on_own_credential_only :
  forall (p : provider) (tool : Unified.RegisteredTool)
         (env1 env2 : ProcessEnv) (args : value) (up : upstream),
    In tool (Unified.group p) ->
    credential p env1 = credential p env2 ->
    Unified.callback tool env1 args up = Unified.callback tool env2 args up.
Proof.
  intros p tool env1 env2 args up Hin Hcred.
  each_tool Hin; simpl in Hcred; unfold_callbacks; rewrite Hcred; reflexivity.
Qed.

Lemma result_depends_on_own_credential_only_witness :
  Unified.callback Unified.resolve_library_id Samples.env_full
    (JObj [("libraryName", JStr "react")]) Samples.up_results_object
  = Unified.callback Unified.resolve_library_id Samples.env_context7_only
      (JObj [("libraryName", JStr "react")]) Samples.up_results_object.
Proof.
  apply (result_depends_on_own_credential_only Context7).
  - simpl. auto.
  - reflexivity.
Defined.

(** *** The documentation tools *)

(** C10. With the credential present, get-library-docs issues exactly one
    upstream request whose maxTokens is [tokens || 5000]: it is 5000 when
    tokens is omitted and also when tokens is 0, and it is never 0. *)
Theorem docs_token_budget_defaults :
  forall (env : ProcessEnv) (fields : list (string * value)) (up : upstream),
    falsy (CONTEXT7_API_KEY env) = false ->
    exists request,
      requests (snd (Unified.callback Unified.get_library_docs env
                       (JObj fields) up)) = [request]
      /\ body_field "maxTokens" request
         = or_else (field "tokens" fields) (JNum 5000)
      /\ (assoc "tokens" fields = None ->
          body_field "maxTokens" request = JNum 5000)
      /\ (assoc "tokens" fields = Some (JNum 0) ->
          body_field "maxTokens" request = JNum 5000)
      /\ body_field "maxTokens" request <> JNum 0.
Proof.
  intros env fields up Hcred.
  unfold_callbacks; run. simpl. rewrite Hcred.
  match goal with
  | |- context [up ?r] => exists r; destruct (up r)
  end; (split; [reflexivity | ]); unfold body_field, field; simpl;
    (split; [reflexivity | ]);
    (split; [intros ->; reflexivity | ]);
    (split; [intros ->; reflexivity | ]);
    unfold or_else;
    destruct (assoc "tokens" fields) as [v | ]; simpl;
    try discriminate;
    destruct (truthy v) eqn:Ht; try discriminate;
    intros ->; simpl in Ht; discriminate.
Qed.

Lemma docs_token_budget_defaults_witness :
  exists request,
    requests (snd (Unified.callback Unified.get_library_docs Samples.env_full
                     (JObj [("context7CompatibleLibraryID", JStr "/org/project");
                            ("tokens", JNum 0)])
                     Samples.up_results_object)) = [request]
    /\ body_field "maxTokens" request = JNum 5000.
Proof.
  destruct (docs_token_budget_defaults Samples.env_full
              [("context7CompatibleLibraryID", JStr "/org/project");
               ("tokens", JNum 0)]
              Samples.up_results_object eq_refl)
    as [request [H1 [_ [_ [H4 _]]]]].
  exists request. split; [exact H1 | apply H4; reflexivity].
Defined.

(** *** The registry *)

(** C5. The server built for a request holds exactly ten tools with pairwise
    distinct names: the two documentation tools, then the four research
    tools, then the four web-data tools, and no name of one group occurs in
    another. A "list tools" query returns these ten descriptors, each with a
    non-empty description, input schema and output schema. The construction
    takes no input, so every request lists the same descriptors. *)
Theorem registry_has_ten_distinct_tools :
  (forall (is_url : string -> bool) (env : ProcessEnv) (up : upstream),
      Unified.post_mcp is_url env Unified.ListTools up
      = (Unified.Listing (Unified.listTools Unified.build_server), []))
  /\ map Unified.d_name (Unified.listTools Unified.build_server)
  = ["mcp__context7__resolve-library-id";
     "mcp__context7__get-library-docs";
     "perplexity_search";
     "perplexity_ask";
     "perplexity_research";
     "perplexity_reason";
     "mcp__brightdata__search_engine";
     "mcp__brightdata__scrape_as_markdown";
     "mcp__brightdata__scrape_batch";
     "mcp__brightdata__search_engine_batch"]
  /\ List.length (Unified.listTools Unified.build_server) = 10%nat
  /\ NoDup (map Unified.d_name (Unified.listTools Unified.build_server))
  /\ Unified.build_server
     = (Unified.group Context7 ++ Unified.group Perplexity
        ++ Unified.group BrightData)%list
  /\ List.length (Unified.group Context7) = 2%nat
  /\ List.length (Unified.group Perplexity) = 4%nat
  /\ List.length (Unified.group BrightData) = 4%nat
  /\ (forall (p q : provider) (tool : Unified.RegisteredTool),
        p <> q -> In tool (Unified.group p) ->
        ~ In (Unified.name tool) (map Unified.name (Unified.group q)))
  /\ Forall (fun d => Unified.d_description d <> ""
                      /\ Unified.d_inputSchema d <> []
                      /\ Unified.d_outputSchema d <> [])
            (Unified.listTools Unified.build_server).
Proof.
  split; [reflexivity | ].
  split; [reflexivity | ].
  split; [reflexivity | ].
  split.
  { cbv -[In]. repeat constructor; simpl; intuition discriminate. }
  split; [reflexivity | ].
  split; [reflexivity | ].
  split; [reflexivity | ].
  split; [reflexivity | ].
  split.
  { intros p q tool Hpq Hin Hname.
    destruct p, q; try congruence; clear Hpq;
      simpl in Hin; intuition (subst; simpl in Hname; intuition discriminate). }
  cbv -[not]. repeat constructor; discriminate.
Qed.

(** *** The research tools *)

Lemma perplexity_callback_requests (model : string) (env : ProcessEnv)
    (args : value) (up : upstream) :
  falsy (PERPLEXITY_API_KEY env) = false ->
  args <> JUndefined -> args <> JNull ->
  exists request,
    requests (snd (Unified.perplexity_callback model env args up)) = [request]
    /\ body_field "model" request = JStr model.
Proof.
  intros Hcred Hu Hn.
  destruct (destructure_defined args "query" Hu Hn) as [Hd [query Hq]].
  unfold Unified.perplexity_callback; run. rewrite Hd, Hq, Hcred.
  match goal with
  | |- context [up ?r] => exists r; destruct (up r) as [d | e]
  end; [destruct (first_choice_content d) | ]; split; reflexivity.
Qed.

Lemma perplexity_call_requests (name model : string) (env : ProcessEnv)
    (args : value) (up : upstream) :
  index_record Sse.modelMap name = JStr model ->
  falsy (PERPLEXITY_API_KEY env) = false ->
  args <> JUndefined -> args <> JNull ->
  exists request,
    requests (snd (Sse.perplexity_call env name args up)) = [request]
    /\ body_field "model" request = JStr model.
Proof.
  intros Hmodel Hcred Hu Hn.
  destruct (destructure_defined args "query" Hu Hn) as [_ [query Hq]].
  unfold Sse.perplexity_call; run. rewrite Hcred, Hmodel, Hq.
  assert (Ht : truthy (JStr model) = true).
  { revert Hmodel. unfold index_record.
    destruct (assoc name Sse.modelMap) as [m | ] eqn:Hm.
    - intros [= <-]. revert Hm. simpl.
      repeat match goal with
             | |- context [if ?c then _ else _] => destruct c
             end; intros [= <-] || discriminate; reflexivity.
    - repeat match goal with
             | |- context [if ?c then _ else _] => destruct c
             end; discriminate. }
  rewrite Ht. cbn [negb]. cbv beta iota.
  match goal with
  | |- context [up ?r] => exists r; destruct (up r) as [d | e]
  end; [destruct (first_choice_content d) | ]; split; reflexivity.
Qed.

(** C6. The research tools differ only in the model they name: for each of
    the four pairs of the static table, with the credential present and an
    argument object, the callback the unified server registers under that
    tool name and the per-provider handler called with that tool name each
    issue exactly one upstream request, and its model is the one the table
    gives, whatever the arguments, the environment and the upstream. *)
Theorem research_model_is_static :
  forall (toolName model : string) (env : ProcessEnv) (args : value)
         (up : upstream),
    In (toolName, model)
       [("perplexity_search", "sonar");
        ("perplexity_ask", "sonar-pro");
        ("perplexity_research", "sonar-deep-research");
        ("perplexity_reason", "sonar-reasoning-pro")] ->
    falsy (PERPLEXITY_API_KEY env) = false ->
    args <> JUndefined -> args <> JNull ->
    In (toolName, model) Unified.perplexityModels
    /\ In (Unified.perplexity_tool (toolName, model))
          (Unified.group Perplexity)
    /\ Unified.name (Unified.perplexity_tool (toolName, model)) = toolName
    /\ (exists request,
          requests
            (snd (Unified.callback (Unified.perplexity_tool (toolName, model))
                    env args up)) = [request]
          /\ body_field "model" request = JStr model)
    /\ (exists request,
          requests (snd (Sse.perplexity_call env toolName args up)) = [request]
          /\ body_field "model" request = JStr model).
Proof.
  intros toolName model env args up Hin Hcred Hu Hn.
  split; [exact Hin | ].
  split.
  { change (Unified.group Perplexity)
      with (map Unified.perplexity_tool Unified.perplexityModels).
    apply in_map. exact Hin. }
  split; [reflexivity | ].
  split.
  - apply perplexity_callback_requests; assumption.
  - apply perplexity_call_requests; try assumption.
    simpl in Hin.
    destruct Hin as [H | [H | [H | [H | []]]]]; inversion H; reflexivity.
Qed.

Lemma research_model_is_static_witness :
  exists request,
    requests (snd (Sse.perplexity_call Samples.env_full "perplexity_research"
                     (JObj [("query", JStr "why is the sky blue")])
                     Samples.up_chat)) = [request]
    /\ body_field "model" request = JStr "sonar-deep-research".
Proof.
  refine (proj2 (proj2 (proj2 (proj2
            (research_model_is_static
               "perplexity_research" "sonar-deep-research" Samples.env_full
               (JObj [("query", JStr "why is the sky blue")]) Samples.up_chat
               _ _ _ _))))).
  - simpl. auto.
  - reflexivity.
  - discriminate.
  - discriminate.
Defined.

(** *** The web-data tools *)

(** C7, as stated, fails on the engine the callback sees: the input schema
    declares [engine] optional and gives it no default, so an argument
    object without [engine] is accepted as it is and the callback's [engine]
    is [undefined], whereas with engine 'google' supplied it is 'google'. *)
Lemma omitted_engine_is_undefined :
  assoc "engine" (Unified.inputSchema Unified.search_engine)
  = Some (ZOptional (ZEnum ["google"; "bing"; "yandex"]))
  /\ accepts Samples.has_scheme
       (ZObject (Unified.inputSchema Unified.search_engine))
       (JObj [("query", JStr "rocq prover")]) = true
  /\ destructure (JObj [("query", JStr "rocq prover")]) "engine"
     = Ret JUndefined
  /\ destructure (JObj [("query", JStr "rocq prover");
                        ("engine", JStr "google")]) "engine"
     = Ret (JStr "google")
  /\ destructure (JObj [("query", JStr "rocq prover")]) "engine"
     <> destructure (JObj [("query", JStr "rocq prover");
                           ("engine", JStr "google")]) "engine".
Proof.
  repeat split; try reflexivity. discriminate.
Qed.

(** C7, amended. For the search-engine tool the default engine is applied by
    the callback, not by the schema. With [engine] omitted the callback's
    [engine] is [undefined], with 'google' supplied it is 'google'; the
    callback works with [engine || 'google'], so both invocations of a given
    query have the same outcome and events, which with the token configured
    is the single result "Searched google for: " followed by the query. The
    engine is not ignored: a supplied engine other than the empty string is
    the one named in the result. *)
Theorem engine_defaults_to_google :
  forall (env : ProcessEnv) (omitted explicit other : list (string * value))
         (engine : string) (up : upstream),
    assoc "engine" omitted = None ->
    assoc "engine" explicit = Some (JStr "google") ->
    assoc "engine" other = Some (JStr engine) ->
    engine <> "" ->
    assoc "query" explicit = assoc "query" omitted ->
    assoc "query" other = assoc "query" omitted ->
    destructure (JObj omitted) "engine" = Ret JUndefined
    /\ destructure (JObj explicit) "engine" = Ret (JStr "google")
    /\ Unified.callback Unified.search_engine env (JObj omitted) up
       = Unified.callback Unified.search_engine env (JObj explicit) up
    /\ (falsy (BRIGHTDATA_API_TOKEN env) = false ->
        let answer (e : string) :=
          JObj [("results",
                 JArr [JStr ("Searched " ++ e ++ " for: "
                             ++ to_string (field "query" omitted))])] in
        Unified.callback Unified.search_engine env (JObj omitted) up
        = (Ret {| content :=
                    [Text (of_optional_string
                             (JSON_stringify (answer "google")))];
                  structuredContent := Some (answer "google");
                  isError := false |}, [])
        /\ Unified.callback Unified.search_engine env (JObj other) up
           = (Ret {| content :=
                       [Text (of_optional_string
                                (JSON_stringify (answer engine)))];
                     structuredContent := Some (answer engine);
                     isError := false |}, [])).
Proof.
  intros env omitted explicit other engine up Ho He Hother Hengine Hq Hq'.
  split; [simpl; rewrite Ho; reflexivity | ].
  split; [simpl; rewrite He; reflexivity | ].
  split.
  { unfold_callbacks; run. simpl. rewrite Ho, He, Hq. reflexivity. }
  intros Hcred. cbv zeta. unfold field.
  assert (Ht : truthy (JStr engine) = true).
  { simpl. destruct (String.eqb_spec engine ""); [contradiction | reflexivity]. }
  split.
  - unfold_callbacks; run. simpl. rewrite Ho, Hcred. reflexivity.
  - unfold_callbacks; run. cbn [destructure get_prop].
    rewrite Hother, Hq', Hcred. unfold or_else. rewrite Ht. reflexivity.
Qed.

Lemma engine_defaults_to_google_witness :
  Unified.callback Unified.search_engine Samples.env_full
    (JObj [("query", JStr "rocq prover")]) Samples.up_chat
  = Unified.callback Unified.search_engine Samples.env_full
      (JObj [("query", JStr "rocq prover"); ("engine", JStr "google")])
      Samples.up_chat
  /\ structuredContent
       match fst (Unified.callback Unified.search_engine Samples.env_full
                    (JObj [("query", JStr "rocq prover");
                           ("engine", JStr "bing")]) Samples.up_chat) with
       | Ret result => result
       | Throw message => failure message
       end
     = Some (JObj [("results",
                    JArr [JStr "Searched bing for: rocq prover"])]).
Proof.
  destruct (engine_defaults_to_google
              Samples.env_full
              [("query", JStr "rocq prover")]
              [("query", JStr "rocq prover"); ("engine", JStr "google")]
              [("query", JStr "rocq prover"); ("engine", JStr "bing")]
              "bing" Samples.up_chat)
    as [_ [_ [Hsame Hanswer]]];
    try reflexivity; try discriminate.
  split; [exact Hsame | ].
  destruct (Hanswer eq_refl) as [_ Hother]. rewrite Hother. reflexivity.
Defined.

Lemma map_outcome_total {A B : Type} (f : A -> B) (l : list A) :
  Unified.map_outcome (fun x => Ret (f x)) l = Ret (map f l).
Proof.
  induction l as [ | x r IH]; simpl; [ | rewrite IH]; reflexivity.
Qed.

(** What the batch-scrape callback returns for an array of URLs. *)
Lemma scrape_batch_on_array (env : ProcessEnv)
    (fields : list (string * value)) (items : list value) (up : upstream) :
  assoc "urls" fields = Some (JArr items) ->
  Unified.scrape_batch_callback env (JObj fields) up
  = (if falsy (BRIGHTDATA_API_TOKEN env)
     then Throw "BRIGHTDATA_API_TOKEN not configured"
     else
       let output :=
         JObj [("results",
                JArr (map (fun url => JObj [("url", url);
                                            ("status", JStr "scraped")])
                          items))] in
       Ret (Unified.success (JSON_stringify output) output),
     []).
Proof.
  intros Hurls. unfold Unified.scrape_batch_callback; run. simpl.
  rewrite Hurls. destruct (falsy (BRIGHTDATA_API_TOKEN env)); [reflexivity | ].
  unfold Unified.array_map. rewrite map_outcome_total. reflexivity.
Qed.

(** C4. Dispatching mcp__brightdata__scrape_batch on an argument object whose
    [urls] is an array: with 11 or more elements the dispatch answers with
    the "invalid params" protocol error and causes no event, so the callback
    is not entered; with exactly 10 elements, each a string that passes the
    URL test, validation passes, the callback is entered, and its outcome is
    the response: one [{url, status: 'scraped'}] per URL when the token is
    configured, the missing-credential failure otherwise. *)
Theorem scrape_batch_bound :
  forall (is_url : string -> bool) (env : ProcessEnv)
         (fields : list (string * value)) (items : list value) (up : upstream),
    assoc "urls" fields = Some (JArr items) ->
    (11 <= List.length items ->
     Unified.callTool is_url Unified.build_server env
       "mcp__brightdata__scrape_batch" (JObj fields) up
     = (ProtocolError InvalidParams, []))
    /\ (List.length items = 10%nat ->
        forallb (accepts is_url ZUrl) items = true ->
        Unified.callTool is_url Unified.build_server env
          "mcp__brightdata__scrape_batch" (JObj fields) up
        = (ToolResponse
             (if falsy (BRIGHTDATA_API_TOKEN env)
              then failure "BRIGHTDATA_API_TOKEN not configured"
              else
                let output :=
                  JObj [("results",
                         JArr (map (fun url => JObj [("url", url);
                                                     ("status", JStr "scraped")])
                                   items))] in
                Unified.success (JSON_stringify output) output),
           [EvAdapter "mcp__brightdata__scrape_batch"])).
Proof.
  intros is_url env fields items up Hurls.
  assert (Hlookup :
            Unified.lookup Unified.build_server "mcp__brightdata__scrape_batch"
            = Some Unified.scrape_batch) by reflexivity.
  assert (Haccepts :
            accepts is_url (ZObject (Unified.inputSchema Unified.scrape_batch))
              (JObj fields)
            = forallb (accepts is_url ZUrl) items
              && (List.length items <=? 10)%nat).
  { simpl. unfold field. rewrite Hurls. apply andb_true_r. }
  unfold Unified.callTool. rewrite Hlookup, Haccepts.
  split.
  - intros Hlen.
    replace (List.length items <=? 10)%nat with false
      by (symmetry; apply Nat.leb_gt; lia).
    rewrite andb_false_r. reflexivity.
  - intros Hlen Hall. rewrite Hall, Hlen. simpl andb. cbv iota.
    change (Unified.callback Unified.scrape_batch)
      with Unified.scrape_batch_callback.
    rewrite (scrape_batch_on_array env fields items up Hurls).
    destruct (falsy (BRIGHTDATA_API_TOKEN env)); reflexivity.
Qed.

Lemma scrape_batch_bound_witness :
  Unified.callTool Samples.has_scheme Unified.build_server Samples.env_full
    "mcp__brightdata__scrape_batch"
    (JObj [("urls", JArr Samples.eleven_urls)]) Samples.up_chat
  = (ProtocolError InvalidParams, [])
  /\ fst (Unified.callTool Samples.has_scheme Unified.build_server
            Samples.env_full "mcp__brightdata__scrape_batch"
            (JObj [("urls", JArr Samples.ten_urls)]) Samples.up_chat)
     <> ProtocolError InvalidParams.
Proof.
  split.
  - apply (proj1 (scrape_batch_bound Samples.has_scheme Samples.env_full
                    [("urls", JArr Samples.eleven_urls)] Samples.eleven_urls
                    Samples.up_chat eq_refl)).
    simpl. lia.
  - rewrite (proj2 (scrape_batch_bound Samples.has_scheme Samples.env_full
                      [("urls", JArr Samples.ten_urls)] Samples.ten_urls
                      Samples.up_chat eq_refl) eq_refl eq_refl).
    discriminate.
Defined.

(** *** Failures of tool execution *)

Lemma lookup_registered (p : provider) (tool : Unified.RegisteredTool) :
  In tool (Unified.group p) ->
  Unified.lookup Unified.build_server (Unified.name tool) = Some tool.
Proof.
  intros H; destruct p; simpl in H;
    repeat (destruct H as [H | H]; [subst tool; reflexivity | ]);
    destruct H.
Qed.

Lemma callTool_registered (is_url : string -> bool) (p : provider)
    (tool : Unified.RegisteredTool) (env : ProcessEnv) (args : value)
    (up : upstream) :
  In tool (Unified.group p) ->
  accepts is_url (ZObject (Unified.inputSchema tool)) args = true ->
  Unified.callTool is_url Unified.build_server env (Unified.name tool) args up
  = (ToolResponse match fst (Unified.callback tool env args up) with
                  | Ret result => result
                  | Throw message => failure message
                  end,
     EvAdapter (Unified.name tool) :: snd (Unified.callback tool env args up)).
Proof.
  intros Hin Hacc. unfold Unified.callTool.
  rewrite (lookup_registered p tool Hin), Hacc.
  destruct (Unified.callback tool env args up) as [o t]. reflexivity.
Qed.

Lemma accepted_arguments_are_objects (is_url : string -> bool)
    (fields_schema : shape) (args : value) :
  accepts is_url (ZObject fields_schema) args = true ->
  exists fields, args = JObj fields.
Proof.
  destruct args; simpl; try discriminate. eauto.
Qed.

Lemma bind_lift {A B : Type} (o : outcome A) (k : A -> M B) (up : upstream) :
  Effects.bind (Effects.lift o) k up
  = match o with
    | Ret a => k a up
    | Throw e => (Throw e, [])
    end.
Proof.
  unfold Effects.bind, Effects.lift. destruct o as [a | e]; [ | reflexivity].
  destruct (k a up). reflexivity.
Qed.

Lemma bind_axios_post {B : Type} (u : string) (d : value)
    (h : list (string * string)) (k : value -> M B) (up : upstream) :
  Effects.bind (Effects.axios_post u d h) k up
  = let request := {| url := u; data := d; headers := h |} in
    match up request with
    | Resolved x => (fst (k x up), EvHttp request :: snd (k x up))
    | Rejected e => (Throw e, [EvHttp request])
    end.
Proof.
  unfold Effects.bind, Effects.axios_post. cbv zeta.
  destruct (up _) as [x | e]; [ | reflexivity].
  destruct (k x up). reflexivity.
Qed.

(** Steps through the body of a callback or handler. *)
Ltac step :=
  repeat first
    [ rewrite bind_axios_post; cbv zeta
    | rewrite bind_lift
    | match goal with
      | |- context [if falsy ?c then _ else _] => destruct (falsy c) eqn:?
      | |- context [match ?up ?r with Resolved _ => _ | Rejected _ => _ end] =>
          destruct (up r) eqn:?
      | |- context [match ?o with Ret _ => _ | Throw _ => _ end] =>
          destruct o eqn:?
      end ].

Lemma callback_upstream_failure (p : provider)
    (tool : Unified.RegisteredTool) (env : ProcessEnv) (args : value)
    (up : upstream) (request : http_request) (message : string) :
  In tool (Unified.group p) ->
  In (EvHttp request) (snd (Unified.callback tool env args up)) ->
  up request = Rejected message ->
  fst (Unified.callback tool env args up) = Throw message.
Proof.
  intros Hin. each_tool Hin; unfold_callbacks; step; cbn [fst snd In];
    try (intros []; fail);
    intros [H | []] Hup; injection H as H; subst request;
    match goal with
    | Hres : up _ = _ |- _ =>
        pose proof (eq_trans (eq_sym Hres) Hup) as E;
        inversion E; subst; reflexivity
    end.
Qed.

Lemma try_catch_error_result (m : M CallToolResult) (up : upstream) :
  Effects.try_catch m (fun message => ret (Sse.error_result message)) up
  = (Ret match fst (m up) with
         | Ret result => result
         | Throw message => Sse.error_result message
         end,
     snd (m up)).
Proof.
  unfold Effects.try_catch, Effects.ret.
  destruct (m up) as [[result | message] t]; simpl;
    rewrite ?app_nil_r; reflexivity.
Qed.

(** A rejected upstream request of a handler ends in its error result. *)
Lemma handler_upstream_failure (p : provider) (env : ProcessEnv)
    (name : string) (args : value) (up : upstream) (request : http_request)
    (message : string) :
  In (EvHttp request) (snd (Sse.call p env name args up)) ->
  up request = Rejected message ->
  fst (Sse.call p env name args up) = Ret (Sse.error_result message).
Proof.
  destruct p; unfold_handlers; rewrite try_catch_error_result;
    cbn [fst snd];
    match goal with
    | |- In _ (snd (?m up)) -> _ =>
        assert (Hbody : In (EvHttp request) (snd (m up)) ->
                        up request = Rejected message ->
                        fst (m up) = Throw message)
    end;
    try (intros Hin Hup; rewrite (Hbody Hin Hup); reflexivity);
    step;
    repeat match goal with
           | |- context [if ?c then _ else _] => destruct c eqn:?; step
           end;
    cbn [fst snd In Effects.throw Effects.ret];
    try (intros []; fail);
    intros [H | []] Hup; injection H as H; subst request;
    match goal with
    | Hres : up _ = _ |- _ =>
        pose proof (eq_trans (eq_sym Hres) Hup) as E;
        inversion E; subst; reflexivity
    end.
Qed.

(** C1. A failure of tool execution stays inside the result. A per-provider
    handler always returns a result, never throws: when its credential is
    unset the result is marked "is error" and its text is "Error: " followed
    by the credential's variable name and " not configured"; when one of its
    upstream requests is rejected the result is marked "is error" and its text
    is "Error: " followed by the upstream's message. In the unified server
    the callback throws the error naming the missing credential, or the
    upstream's rejection, and the dispatch of a registered tool on arguments
    its schema accepts answers with a tool response, never a protocol error,
    whose result is marked "is error" and carries that very message. *)
Theorem tool_failures_are_marked_results :
  forall (p : provider) (env : ProcessEnv) (tool_name : string) (args : value)
         (up : upstream),
    (exists result events,
        Sse.call p env tool_name args up = (Ret result, events)
        /\ respond (fst (Sse.call p env tool_name args up))
           = ToolResponse result
        /\ (falsy (credential p env) = true ->
            result
            = {| content :=
                   [Text (JStr ("Error: " ++ credential_name p
                                ++ " not configured"))];
                 structuredContent := None;
                 isError := true |})
        /\ (forall request message,
               In (EvHttp request) events ->
               up request = Rejected message ->
               result
               = {| content := [Text (JStr ("Error: " ++ message))];
                    structuredContent := None;
                    isError := true |}))
    /\ (forall (is_url : string -> bool) (tool : Unified.RegisteredTool),
           In tool (Unified.group p) ->
           accepts is_url (ZObject (Unified.inputSchema tool)) args = true ->
           exists result events,
             Unified.callTool is_url Unified.build_server env
               (Unified.name tool) args up
             = (ToolResponse result, events)
             /\ (falsy (credential p env) = true ->
                 fst (Unified.callback tool env args up)
                 = Throw (credential_name p ++ " not configured")
                 /\ result
                    = {| content :=
                           [Text (JStr (credential_name p
                                        ++ " not configured"))];
                         structuredContent := None;
                         isError := true |})
             /\ (forall request message,
                    In (EvHttp request) events ->
                    up request = Rejected message ->
                    fst (Unified.callback tool env args up) = Throw message
                    /\ result
                       = {| content := [Text (JStr message)];
                            structuredContent := None;
                            isError := true |})).
Proof.
  intros p env tool_name args up. split.
  - assert (Htotal : exists result,
               fst (Sse.call p env tool_name args up) = Ret result).
    { destruct p; unfold_handlers; rewrite try_catch_error_result;
        eexists; reflexivity. }
    destruct Htotal as [result Hresult].
    destruct (Sse.call p env tool_name args up) as [o events] eqn:Hcall.
    simpl in Hresult. subst o.
    exists result, events. split; [reflexivity | ].
    split; [reflexivity | ].
    split.
    + intros Hcred.
      rewrite (handler_without_credential p env tool_name args up Hcred)
        in Hcall.
      injection Hcall as <- _. reflexivity.
    + intros request message Hin Hup.
      pose proof (handler_upstream_failure
                    p env tool_name args up request message) as Hfail.
      rewrite Hcall in Hfail. simpl in Hfail.
      specialize (Hfail Hin Hup). injection Hfail as ->. reflexivity.
  - intros is_url tool Hin Hacc.
    rewrite (callTool_registered is_url p tool env args up Hin Hacc).
    do 2 eexists. split; [reflexivity | ].
    destruct (accepted_arguments_are_objects _ _ _ Hacc) as [fields ->].
    split.
    + intros Hcred.
      destruct (callback_without_credential
                  p tool env (JObj fields) up Hin Hcred) as [_ Hthrows].
      rewrite Hthrows by discriminate. split; reflexivity.
    + intros request message [Hev | Hev] Hup; [discriminate Hev | ].
      rewrite (callback_upstream_failure
                 p tool env (JObj fields) up request message Hin Hev Hup).
      split; reflexivity.
Qed.

Lemma tool_failures_are_marked_results_witness :
  exists result events,
    Unified.callTool Samples.has_scheme Unified.build_server Samples.env_empty
      "perplexity_ask" (JObj [("query", JStr "why is the sky blue")])
      Samples.up_chat
    = (ToolResponse result, events)
    /\ result
       = {| content := [Text (JStr "PERPLEXITY_API_KEY not configured")];
            structuredContent := None;
            isError := true |}.
Proof.
  destruct (proj2 (tool_failures_are_marked_results
                     Perplexity Samples.env_empty "perplexity_ask"
                     (JObj [("query", JStr "why is the sky blue")])
                     Samples.up_chat)
              Samples.has_scheme
              (Unified.perplexity_tool ("perplexity_ask", "sonar-pro"))
              (or_intror (or_introl eq_refl)) eq_refl)
    as [result [events [Hcall [Hcred _]]]].
  exists result, events. split; [exact Hcall | exact (proj2 (Hcred eq_refl))].
Defined.

(** *** Unknown tool names *)

(** C3, as stated, fails on the documentation endpoint: a name that is none
    of the ten registered names, called with the credential configured, is
    answered by a success-shaped result marked "is error", not by a
    "method not found" protocol error. *)
Lemma unknown_tool_is_not_a_protocol_error :
  ~ In "mcp__context7__no_such_tool"
       (map Unified.d_name (Unified.listTools Unified.build_server))
  /\ Sse.context7_call Samples.env_full "mcp__context7__no_such_tool"
       (JObj []) Samples.up_chat
     = (Ret {| content :=
                 [Text (JStr "Error: Unknown tool: mcp__context7__no_such_tool")];
               structuredContent := None;
               isError := true |}, [])
  /\ respond (fst (Sse.context7_call Samples.env_full
                     "mcp__context7__no_such_tool" (JObj []) Samples.up_chat))
     <> ProtocolError MethodNotFound.
Proof.
  split; [ | split].
  - simpl. intuition discriminate.
  - reflexivity.
  - discriminate.
Qed.

Lemma lookup_unregistered (server : Unified.McpServer) (tool_name : string) :
  ~ In tool_name (map Unified.name server) ->
  Unified.lookup server tool_name = None.
Proof.
  induction server as [ | t r IH]; intros Hname; [reflexivity | ].
  simpl. destruct (String.eqb_spec (Unified.name t) tool_name) as [Heq | _].
  - exfalso. apply Hname. left. exact Heq.
  - apply IH. intros Hin. apply Hname. right. exact Hin.
Qed.

(** C3, amended. In the unified server an invocation whose tool name is not
    one of the ten registered names is answered by the dispatch with the
    "method not found" protocol error, and nothing happens besides: no
    callback is entered and no upstream request is issued. The documentation
    and research endpoints of the per-provider server report an unknown name
    as a tool execution error instead: the documentation handler, called
    with a name that is neither of its two tool names, and the research
    handler, called with a name under which its model table has no truthy
    property, return a result marked "is error" in a successful response and
    issue no upstream request; its text is "Error: Unknown tool: " followed
    by the name when the endpoint's credential is configured, and "Error: "
    followed by the credential's variable name and " not configured"
    otherwise. *)
Theorem unknown_tool_is_error_result :
  forall (is_url : string -> bool) (env : ProcessEnv) (tool_name : string)
         (args : value) (up : upstream),
    (~ In tool_name (map Unified.name Unified.build_server) ->
     Unified.callTool is_url Unified.build_server env tool_name args up
     = (ProtocolError MethodNotFound, []))
    /\ (~ In tool_name (map fst Sse.context7_list) ->
        Sse.context7_call env tool_name args up
        = (Ret {| content :=
                    [Text (JStr (if falsy (CONTEXT7_API_KEY env)
                                 then "Error: CONTEXT7_API_KEY not configured"
                                 else "Error: Unknown tool: " ++ tool_name))];
                  structuredContent := None;
                  isError := true |}, [])
        /\ exists result,
             respond (fst (Sse.context7_call env tool_name args up))
             = ToolResponse result /\ isError result = true)
    /\ (truthy (index_record Sse.modelMap tool_name) = false ->
        Sse.perplexity_call env tool_name args up
        = (Ret {| content :=
                    [Text (JStr (if falsy (PERPLEXITY_API_KEY env)
                                 then "Error: PERPLEXITY_API_KEY not configured"
                                 else "Error: Unknown tool: " ++ tool_name))];
                  structuredContent := None;
                  isError := true |}, [])
        /\ exists result,
             respond (fst (Sse.perplexity_call env tool_name args up))
             = ToolResponse result /\ isError result = true).
Proof.
  intros is_url env tool_name args up. split; [ | split].
  - intros Hname. unfold Unified.callTool.
    rewrite (lookup_unregistered _ _ Hname). reflexivity.
  - intros Hname.
    match goal with
    | |- ?call = ?r /\ _ => assert (Hcall : call = r)
    end.
    { unfold Sse.context7_call. rewrite try_catch_error_result.
      destruct (falsy (CONTEXT7_API_KEY env)); [reflexivity | ].
      destruct (String.eqb_spec tool_name "mcp__context7__resolve-library-id")
        as [-> | _]; [exfalso; apply Hname; simpl; auto | ].
      destruct (String.eqb_spec tool_name "mcp__context7__get-library-docs")
        as [-> | _]; [exfalso; apply Hname; simpl; auto | ].
      reflexivity. }
    split; [exact Hcall | ]. rewrite Hcall. eexists. split; reflexivity.
  - intros Hmodel.
    match goal with
    | |- ?call = ?r /\ _ => assert (Hcall : call = r)
    end.
    { unfold Sse.perplexity_call. rewrite try_catch_error_result.
      destruct (falsy (PERPLEXITY_API_KEY env)); [reflexivity | ].
      cbv zeta. rewrite Hmodel. reflexivity. }
    split; [exact Hcall | ]. rewrite Hcall. eexists. split; reflexivity.
Qed.

Lemma unknown_tool_is_error_result_witness :
  Unified.callTool Samples.has_scheme Unified.build_server Samples.env_full
    "mcp__context7__no_such_tool" (JObj []) Samples.up_chat
  = (ProtocolError MethodNotFound, [])
  /\ Sse.context7_call Samples.env_full "perplexity_ask"
       (JObj [("query", JStr "why is the sky blue")]) Samples.up_chat
     = (Ret {| content := [Text (JStr "Error: Unknown tool: perplexity_ask")];
               structuredContent := None;
               isError := true |}, [])
  /\ Sse.perplexity_call Samples.env_full "mcp__context7__get-library-docs"
       (JObj []) Samples.up_chat
     = (Ret {| content :=
                 [Text (JStr
                    "Error: Unknown tool: mcp__context7__get-library-docs")];
               structuredContent := None;
               isError := true |}, []).
Proof.
  split; [ | split].
  - refine (proj1 (unknown_tool_is_error_result
                     Samples.has_scheme Samples.env_full
                     "mcp__context7__no_such_tool" (JObj [])
                     Samples.up_chat) _).
    simpl. intuition discriminate.
  - refine (proj1 (proj1 (proj2 (unknown_tool_is_error_result
                                   Samples.has_scheme Samples.env_full
                                   "perplexity_ask"
                                   (JObj [("query",
                                           JStr "why is the sky blue")])
                                   Samples.up_chat)) _)).
    simpl. intuition discriminate.
  - exact (proj1 (proj2 (proj2 (unknown_tool_is_error_result
                                  Samples.has_scheme Samples.env_full
                                  "mcp__context7__get-library-docs"
                                  (JObj []) Samples.up_chat)) eq_refl)).
Defined.

(** *** Successful results *)

Lemma serialize_object (gap indent : string) (fields : list (string * value)) :
  exists text, serialize gap indent (JObj fields) = Some text.
Proof. simpl. eauto. Qed.


Lemma forallb_always_true {A : Type} (l : list A) :
  forallb (fun _ => true) l = true.
Proof. induction l; simpl; auto. Qed.

(** What each callback returns when it returns. *)
Lemma resolve_library_id_returns (env : ProcessEnv) (args : value)
    (up : upstream) (result : CallToolResult) (events : list event) :
  Unified.resolve_library_id_callback env args up = (Ret result, events) ->
  exists request d,
    events = [EvHttp request] /\ up request = Resolved d
    /\ result = Unified.success (JSON_stringify_2 (JObj [("libraries", d)]))
                  (JObj [("libraries", d)]).
Proof.
  unfold Unified.resolve_library_id_callback; step;
    cbn [Effects.throw Effects.ret fst snd];
    intros Hcall; try discriminate Hcall; injection Hcall as <- <-.
  do 2 eexists. split; [reflexivity | ]. split; [eassumption | reflexivity].
Qed.

Lemma get_library_docs_returns (env : ProcessEnv) (args : value)
    (up : upstream) (result : CallToolResult) (events : list event) :
  Unified.get_library_docs_callback env args up = (Ret result, events) ->
  exists request d,
    events = [EvHttp request] /\ up request = Resolved d
    /\ result
       = Unified.success (JSON_stringify_2 (JObj [("documentation", d)]))
           (JObj [("documentation", d)]).
Proof.
  unfold Unified.get_library_docs_callback; step;
    cbn [Effects.throw Effects.ret fst snd];
    intros Hcall; try discriminate Hcall; injection Hcall as <- <-.
  do 2 eexists. split; [reflexivity | ]. split; [eassumption | reflexivity].
Qed.

Lemma perplexity_returns (model : string) (env : ProcessEnv) (args : value)
    (up : upstream) (result : CallToolResult) (events : list event) :
  Unified.perplexity_callback model env args up = (Ret result, events) ->
  exists request d answer,
    events = [EvHttp request] /\ up request = Resolved d
    /\ first_choice_content d = Ret answer
    /\ result = Unified.success (JSON_stringify (JObj [("response", answer)]))
                  (JObj [("response", answer)]).
Proof.
  unfold Unified.perplexity_callback; step;
    cbn [Effects.throw Effects.ret fst snd];
    intros Hcall; try discriminate Hcall; injection Hcall as <- <-.
  do 3 eexists. split; [reflexivity | ].
  split; [eassumption | ]. split; [eassumption | reflexivity].
Qed.

Lemma array_map_returns (receiver : string) (v : value)
    (f : value -> outcome value) (w : value) :
  Unified.array_map receiver v f = Ret w -> exists items, w = JArr items.
Proof.
  unfold Unified.array_map.
  destruct v; try discriminate.
  destruct (Unified.map_outcome f items) as [ys | e]; [ | discriminate].
  intros [= <-]. eauto.
Qed.

Lemma brightdata_returns (is_url : string -> bool)
    (tool : Unified.RegisteredTool) (env : ProcessEnv)
    (args : value) (up : upstream) (result : CallToolResult)
    (events : list event) :
  In tool (Unified.group BrightData) ->
  Unified.callback tool env args up = (Ret result, events) ->
  events = []
  /\ exists fields,
       result = Unified.success (JSON_stringify (JObj fields)) (JObj fields)
       /\ accepts is_url (ZObject (Unified.outputSchema tool)) (JObj fields)
          = true.
Proof.
  intros Hin.
  destruct (group_cases BrightData tool Hin) as [-> | [-> | [-> | ->]]];
    unfold_callbacks; step; cbn [Effects.throw Effects.ret fst snd];
    intros Hcall; try discriminate Hcall; injection Hcall as <- <-;
    (split; [reflexivity | ]); eexists; (split; [reflexivity | ]);
    try reflexivity;
    match goal with
    | H : Unified.array_map _ _ _ = Ret _ |- _ =>
        destruct (array_map_returns _ _ _ _ H) as [items ->]
    end; simpl; rewrite forallb_always_true; reflexivity.
Qed.

(** X16. Whenever a tool callback of the unified server returns, its
    result is not marked "is error" and carries a structured output object
    and exactly one text entry, and the text is the JSON serialization of
    that same object (indented by two spaces for the documentation tools,
    compact for the others). The object conforms to the tool's declared
    output schema for get-library-docs and for the four web-data tools; for
    resolve-library-id it conforms exactly when the upstream payload is an
    array, and for a research tool exactly when the answer found in the
    upstream payload is a string. *)
Theorem success_carries_structured_and_text :
  forall (is_url : string -> bool) (p : provider)
         (tool : Unified.RegisteredTool) (env : ProcessEnv) (args : value)
         (up : upstream) (result : CallToolResult) (events : list event),
    In tool (Unified.group p) ->
    Unified.callback tool env args up = (Ret result, events) ->
    exists output text,
      result = {| content := [Text (JStr text)];
                  structuredContent := Some output;
                  isError := false |}
      /\ match p with
         | Context7 => JSON_stringify_2 output
         | Perplexity | BrightData => JSON_stringify output
         end = Some text
      /\ match p with
         | Context7 =>
             exists request d,
               events = [EvHttp request] /\ up request = Resolved d
               /\ (tool = Unified.get_library_docs ->
                   output = JObj [("documentation", d)]
                   /\ accepts is_url (ZObject (Unified.outputSchema tool))
                        output = true)
               /\ (tool = Unified.resolve_library_id ->
                   output = JObj [("libraries", d)]
                   /\ (accepts is_url (ZObject (Unified.outputSchema tool))
                         output = true
                       <-> exists items, d = JArr items))
         | Perplexity =>
             exists request d answer,
               events = [EvHttp request] /\ up request = Resolved d
               /\ first_choice_content d = Ret answer
               /\ output = JObj [("response", answer)]
               /\ (accepts is_url (ZObject (Unified.outputSchema tool))
                     output = true
                   <-> exists s, answer = JStr s)
         | BrightData =>
             events = []
             /\ accepts is_url (ZObject (Unified.outputSchema tool))
                  output = true
         end.
Proof.
  intros is_url p tool env args up result events Hin Hcall.
  pose proof (group_cases p tool Hin) as Hcases.
  destruct p.
  - destruct Hcases as [-> | ->].
    + destruct (resolve_library_id_returns env args up result events Hcall)
        as [request [d [-> [Hup ->]]]].
      destruct (serialize_object "  " "" [("libraries", d)]) as [text Htext].
      exists (JObj [("libraries", d)]), text.
      unfold Unified.success, JSON_stringify_2. rewrite Htext.
      split; [reflexivity | ]. split; [reflexivity | ].
      exists request, d. split; [reflexivity | ]. split; [exact Hup | ].
      split.
      * intros Heq. apply (f_equal Unified.name) in Heq. discriminate Heq.
      * intros _. split; [reflexivity | ].
        simpl. unfold field. simpl.
        destruct d; simpl; rewrite ?forallb_always_true; split;
          solve [ discriminate | intros [items [=]] | eauto ].
    + destruct (get_library_docs_returns env args up result events Hcall)
        as [request [d [-> [Hup ->]]]].
      destruct (serialize_object "  " "" [("documentation", d)])
        as [text Htext].
      exists (JObj [("documentation", d)]), text.
      unfold Unified.success, JSON_stringify_2. rewrite Htext.
      split; [reflexivity | ]. split; [reflexivity | ].
      exists request, d. split; [reflexivity | ]. split; [exact Hup | ].
      split.
      * intros _. split; reflexivity.
      * intros Heq. apply (f_equal Unified.name) in Heq. discriminate Heq.
  - destruct Hcases as [[toolName model] [_ ->]].
    destruct (perplexity_returns model env args up result events Hcall)
      as [request [d [answer [-> [Hup [Hanswer ->]]]]]].
    destruct (serialize_object "" "" [("response", answer)]) as [text Htext].
    exists (JObj [("response", answer)]), text.
    unfold Unified.success, JSON_stringify. rewrite Htext.
    split; [reflexivity | ]. split; [reflexivity | ].
    exists request, d, answer. split; [reflexivity | ].
    split; [exact Hup | ]. split; [exact Hanswer | ].
    split; [reflexivity | ].
    simpl. unfold field. simpl.
    destruct answer; simpl; split;
      solve [ discriminate | intros [s [=]] | eauto ].
  - destruct (brightdata_returns is_url tool env args up result events
                Hin Hcall) as [-> [fields [-> Haccepts]]].
    destruct (serialize_object "" "" fields) as [text Htext].
    exists (JObj fields), text.
    unfold Unified.success, JSON_stringify. rewrite Htext.
    split; [reflexivity | ]. split; [reflexivity | ].
    split; [reflexivity | exact Haccepts].
Qed.

Lemma success_carries_structured_and_text_witness :
  exists output text,
    fst (Unified.callback
           (Unified.perplexity_tool ("perplexity_ask", "sonar-pro"))
           Samples.env_full (JObj [("query", JStr "why is the sky blue")])
           Samples.up_chat)
    = Ret {| content := [Text (JStr text)];
             structuredContent := Some output;
             isError := false |}
    /\ JSON_stringify output = Some text.
Proof.
  destruct (success_carries_structured_and_text
              Samples.has_scheme Perplexity
              (Unified.perplexity_tool ("perplexity_ask", "sonar-pro"))
              Samples.env_full (JObj [("query", JStr "why is the sky blue")])
              Samples.up_chat _ _
              (or_intror (or_introl eq_refl)) eq_refl)
    as [output [text [Hresult [Htext _]]]].
  exists output, text. split; [ | exact Htext].
  simpl. f_equal. exact Hresult.
Defined.

(* ===================================================================== *)
(** ** Further properties of the two servers *)
(* ===================================================================== *)

(** *** Upstream traffic *)

Lemma destructure_ret (args : value) (k : string) (v : value) :
  destructure args k = Ret v -> args <> JUndefined /\ args <> JNull.
Proof. destruct args; simpl; intros H; split; discriminate. Qed.

Lemma destructure_throw (args : value) (k e : string) :
  destructure args k = Throw e -> args = JUndefined \/ args = JNull.
Proof. destruct args; simpl; intros H; auto; discriminate. Qed.

Ltac step_ifs :=
  repeat match goal with
         | |- context [if ?c then _ else _] => destruct c eqn:?; step
         end.

(** X1. No invocation contacts the upstream more than once: every callback
    of the unified server and every per-provider handler issues at most one
    request, for every environment, tool name, argument value and upstream
    behaviour. *)
Theorem at_most_one_upstream_request :
  forall (p : provider) (tool : Unified.RegisteredTool) (env : ProcessEnv)
         (name : string) (args : value) (up : upstream),
    In tool (Unified.group p) ->
    List.length (requests (snd (Unified.callback tool env args up))) <= 1
    /\ List.length (requests (snd (Sse.call p env name args up))) <= 1.
Proof.
  intros p tool env name args up Hin. split.
  - each_tool Hin; unfold_callbacks; step;
      cbn [fst snd requests List.length Effects.throw Effects.ret]; lia.
  - clear Hin. destruct p; unfold_handlers; rewrite try_catch_error_result;
      cbn [snd]; step; step_ifs;
      cbn [fst snd requests List.length Effects.throw Effects.ret]; lia.
Qed.

Lemma at_most_one_upstream_request_witness :
  List.length
    (requests (snd (Unified.callback Unified.get_library_docs Samples.env_full
                      (JObj [("context7CompatibleLibraryID", JStr "/a/b")])
                      Samples.up_down))) <= 1.
Proof.
  refine (proj1 (at_most_one_upstream_request
                   Context7 Unified.get_library_docs Samples.env_full
                   "mcp__context7__get-library-docs"
                   (JObj [("context7CompatibleLibraryID", JStr "/a/b")])
                   Samples.up_down _)).
  simpl. auto.
Defined.

(** X2. A documentation or research callback contacts the upstream exactly
    when its credential is configured and it is given an argument object:
    then it issues one request, also when the upstream rejects it or answers
    with a malformed payload; otherwise it issues none. *)
Theorem upstream_contacted_iff_configured :
  forall (p : provider) (tool : Unified.RegisteredTool) (env : ProcessEnv)
         (args : value) (up : upstream),
    In tool (Unified.group p) ->
    p <> BrightData ->
    (List.length (requests (snd (Unified.callback tool env args up))) = 1%nat
     <-> falsy (credential p env) = false
         /\ args <> JUndefined /\ args <> JNull).
Proof.
  intros p tool env args up Hin Hp.
  each_tool Hin; try congruence; cbn [credential]; unfold_callbacks; step;
    cbn [fst snd requests List.length Effects.throw Effects.ret];
    repeat match goal with
           | H : destructure _ _ = Ret _ |- _ =>
               apply destructure_ret in H
           | H : destructure _ _ = Throw _ |- _ =>
               apply destructure_throw in H
           end;
    split; intros; try discriminate; try tauto;
    intuition congruence.
Qed.

Lemma upstream_contacted_iff_configured_witness :
  List.length
    (requests (snd (Unified.callback Unified.resolve_library_id
                      Samples.env_full (JObj []) Samples.up_down))) = 1%nat.
Proof.
  apply (upstream_contacted_iff_configured
           Context7 Unified.resolve_library_id Samples.env_full (JObj [])
           Samples.up_down).
  - simpl. auto.
  - discriminate.
  - repeat split; discriminate.
Defined.

(** X3. The web-data tools are placeholders on both servers: none of the four
    unified callbacks and not the per-provider handler ever causes an event,
    so no upstream request, for any input. With the token configured the
    per-provider handler answers every tool name, registered or not, and
    every argument value, whatever its size or shape, with a result that is
    not marked "is error": it checks neither the name nor the arguments. *)
Theorem web_data_never_contacts_upstream :
  forall (tool : Unified.RegisteredTool) (env : ProcessEnv) (name : string)
         (args : value) (up : upstream),
    In tool (Unified.group BrightData) ->
    snd (Unified.callback tool env args up) = []
    /\ snd (Sse.brightdata_call env name args up) = []
    /\ (falsy (BRIGHTDATA_API_TOKEN env) = false ->
        exists text,
          fst (Sse.brightdata_call env name args up)
          = Ret {| content := [Text (JStr text)];
                   structuredContent := None;
                   isError := false |}).
Proof.
  intros tool env name args up Hin. split; [ | split].
  - destruct (group_cases BrightData tool Hin) as [-> | [-> | [-> | ->]]];
      unfold_callbacks; step; reflexivity.
  - unfold Sse.brightdata_call. rewrite try_catch_error_result.
    destruct (falsy (BRIGHTDATA_API_TOKEN env)); reflexivity.
  - intros Hcred. unfold Sse.brightdata_call.
    rewrite try_catch_error_result, Hcred. eexists. reflexivity.
Qed.

Lemma web_data_never_contacts_upstream_witness :
  snd (Unified.callback Unified.scrape_batch Samples.env_full
         (JObj [("urls", JArr Samples.eleven_urls)]) Samples.up_chat) = []
  /\ exists text,
       fst (Sse.brightdata_call Samples.env_full "no_such_tool"
              (JObj [("urls", JArr Samples.eleven_urls)]) Samples.up_chat)
       = Ret {| content := [Text (JStr text)];
                structuredContent := None;
                isError := false |}.
Proof.
  destruct (web_data_never_contacts_upstream
              Unified.scrape_batch Samples.env_full "no_such_tool"
              (JObj [("urls", JArr Samples.eleven_urls)]) Samples.up_chat)
    as [Hquiet [_ Hanswer]].
  - simpl. auto.
  - split; [exact Hquiet | exact (Hanswer eq_refl)].
Defined.

Lemma callback_reads_own_credential (p : provider)
    (tool : Unified.RegisteredTool) (env1 env2 : ProcessEnv) (args : value)
    (up : upstream) :
  In tool (Unified.group p) ->
  credential p env1 = credential p env2 ->
  Unified.callback tool env1 args up = Unified.callback tool env2 args up.
Proof.
  intros Hin Hcred.
  each_tool Hin; simpl in Hcred; unfold_callbacks; rewrite Hcred; reflexivity.
Qed.

Lemma handler_reads_own_credential (p : provider) (env1 env2 : ProcessEnv)
    (name : string) (args : value) (up : upstream) :
  credential p env1 = credential p env2 ->
  Sse.call p env1 name args up = Sse.call p env2 name args up.
Proof.
  intros Hcred.
  destruct p; simpl in Hcred; unfold_handlers; rewrite Hcred; reflexivity.
Qed.

(** The headers of a request of provider [p] made with credential
    [secret]. *)
Lemma request_headers_cases (p : provider) (secret : string)
    (h : list (string * string)) :
  h = match p with
      | Perplexity => [("Authorization", "Bearer " ++ secret);
                       ("Content-Type", "application/json")]
      | Context7 | BrightData => [("Authorization", "Bearer " ++ secret)]
      end ->
  assoc "Authorization" h = Some ("Bearer " ++ secret).
Proof. intros ->. destruct p; reflexivity. Qed.

(** X4. A credential only travels to its own provider. Every request a
    documentation or research callback or handler issues goes to that
    provider's API, and its headers are exactly the Authorization header
    "Bearer " followed by that provider's configured, non-empty credential
    (and, for the research provider, the JSON content type). The other two
    credentials never appear in a request: the very same request is issued
    in every environment that agrees on the provider's own credential,
    whatever the other two credentials are. The web-data code issues no
    request. *)
Theorem credential_goes_to_own_provider :
  forall (p : provider) (tool : Unified.RegisteredTool) (env : ProcessEnv)
         (name : string) (args : value) (up : upstream)
         (request : http_request),
    In tool (Unified.group p) ->
    In (EvHttp request) (snd (Unified.callback tool env args up))
    \/ In (EvHttp request) (snd (Sse.call p env name args up)) ->
    match p with
    | Context7 => prefix "https://context7.upstash.io/api/v1/" (url request)
    | Perplexity => prefix "https://api.perplexity.ai/" (url request)
    | BrightData => false
    end = true
    /\ (exists secret,
          credential p env = Some secret /\ secret <> ""
          /\ assoc "Authorization" (headers request)
             = Some ("Bearer " ++ secret)
          /\ headers request
             = match p with
               | Perplexity => [("Authorization", "Bearer " ++ secret);
                                ("Content-Type", "application/json")]
               | Context7 | BrightData =>
                   [("Authorization", "Bearer " ++ secret)]
               end)
    /\ (forall env' : ProcessEnv,
          credential p env' = credential p env ->
          (In (EvHttp request) (snd (Unified.callback tool env args up)) ->
           In (EvHttp request) (snd (Unified.callback tool env' args up)))
          /\ (In (EvHttp request) (snd (Sse.call p env name args up)) ->
              In (EvHttp request) (snd (Sse.call p env' name args up)))).
Proof.
  intros p tool env name args up request Hin Hev.
  assert (Hsame : forall env' : ProcessEnv,
             credential p env' = credential p env ->
             (In (EvHttp request) (snd (Unified.callback tool env args up)) ->
              In (EvHttp request) (snd (Unified.callback tool env' args up)))
             /\ (In (EvHttp request) (snd (Sse.call p env name args up)) ->
                 In (EvHttp request) (snd (Sse.call p env' name args up)))).
  { intros env' Hcred.
    rewrite (callback_reads_own_credential p tool env' env args up Hin Hcred).
    rewrite (handler_reads_own_credential p env' env name args up Hcred).
    split; auto. }
  cut (match p with
       | Context7 => prefix "https://context7.upstash.io/api/v1/" (url request)
       | Perplexity => prefix "https://api.perplexity.ai/" (url request)
       | BrightData => false
       end = true
       /\ exists secret,
            credential p env = Some secret /\ secret <> ""
            /\ headers request
               = match p with
                 | Perplexity => [("Authorization", "Bearer " ++ secret);
                                  ("Content-Type", "application/json")]
                 | Context7 | BrightData =>
                     [("Authorization", "Bearer " ++ secret)]
                 end).
  { intros [Hurl [secret [Hsecret [Hne Hheaders]]]].
    split; [exact Hurl | ]. split; [ | exact Hsame].
    exists secret. repeat split; auto.
    apply (request_headers_cases p). exact Hheaders. }
  clear Hsame. destruct Hev as [Hev | Hev]; revert Hev.
  - each_tool Hin; cbn [credential]; unfold_callbacks; step;
      cbn [fst snd In Effects.throw Effects.ret];
      try (intros []; fail);
      intros [H | []]; injection H as <-;
      (split; [reflexivity | ]);
      match goal with
      | Hf : falsy ?c = false |- _ =>
          destruct c as [secret | ]; [ | discriminate Hf];
          exists secret; split; [reflexivity | ]; split;
          [intros ->; discriminate Hf | reflexivity]
      end.
  - clear Hin. destruct p; cbn [credential]; unfold_handlers;
      rewrite try_catch_error_result; cbn [snd]; step; step_ifs;
      cbn [fst snd In Effects.throw Effects.ret];
      try (intros []; fail);
      intros [H | []]; injection H as <-;
      (split; [reflexivity | ]);
      match goal with
      | Hf : falsy ?c = false |- _ =>
          destruct c as [secret | ]; [ | discriminate Hf];
          exists secret; split; [reflexivity | ]; split;
          [intros ->; discriminate Hf | reflexivity]
      end.
Qed.

Lemma credential_goes_to_own_provider_witness :
  headers {| url := "https://api.perplexity.ai/chat/completions";
             data :=
               JObj [("model", JStr "sonar-pro");
                     ("messages",
                      JArr [JObj [("role", JStr "user");
                                  ("content", JStr "hello")]])];
             headers := [("Authorization", "Bearer pplx-key");
                         ("Content-Type", "application/json")] |}
  = [("Authorization", "Bearer pplx-key");
     ("Content-Type", "application/json")]
  /\ In (EvHttp {| url := "https://api.perplexity.ai/chat/completions";
                   data :=
                     JObj [("model", JStr "sonar-pro");
                           ("messages",
                            JArr [JObj [("role", JStr "user");
                                        ("content", JStr "hello")]])];
                   headers := [("Authorization", "Bearer pplx-key");
                               ("Content-Type", "application/json")] |})
       (snd (Unified.callback
               (Unified.perplexity_tool ("perplexity_ask", "sonar-pro"))
               {| CONTEXT7_API_KEY := Some "another-key";
                  PERPLEXITY_API_KEY := Some "pplx-key";
                  BRIGHTDATA_API_TOKEN := None |}
               (JObj [("query", JStr "hello")]) Samples.up_chat)).
Proof.
  destruct (credential_goes_to_own_provider
              Perplexity
              (Unified.perplexity_tool ("perplexity_ask", "sonar-pro"))
              Samples.env_full "perplexity_ask"
              (JObj [("query", JStr "hello")]) Samples.up_chat
              {| url := "https://api.perplexity.ai/chat/completions";
                 data :=
                   JObj [("model", JStr "sonar-pro");
                         ("messages",
                          JArr [JObj [("role", JStr "user");
                                      ("content", JStr "hello")]])];
                 headers := [("Authorization", "Bearer pplx-key");
                             ("Content-Type", "application/json")] |})
    as [_ [[secret [Hsecret [_ [_ Hheaders]]]] Hsame]].
  - simpl. auto.
  - left. simpl. left. reflexivity.
  - split.
    + injection Hsecret as <-. exact Hheaders.
    + apply (Hsame {| CONTEXT7_API_KEY := Some "another-key";
                      PERPLEXITY_API_KEY := Some "pplx-key";
                      BRIGHTDATA_API_TOKEN := None |} eq_refl).
      simpl. left. reflexivity.
Defined.

(** *** The two servers side by side *)

(** Steps through a body whose argument is an object: only the upstream's
    answer and the answer's shape are left to distinguish. *)
Ltac step_calls :=
  cbn [destructure get_prop];
  repeat first
    [ rewrite bind_axios_post; cbv zeta
    | rewrite bind_lift; cbv beta iota
    | match goal with
      | |- context [match ?up ?r with Resolved _ => _ | Rejected _ => _ end] =>
          destruct (up r) eqn:?
      | |- context [first_choice_content ?d] =>
          destruct (first_choice_content d) eqn:?
      end ];
  cbn [fst snd Effects.ret Effects.throw].

Lemma own_model (toolName model : string) :
  In (toolName, model) Unified.perplexityModels ->
  index_record Sse.modelMap toolName = JStr model.
Proof.
  simpl. intros [H | [H | [H | [H | []]]]]; injection H as <- <-; reflexivity.
Qed.

(** X5. On an argument object the research handler of the per-provider
    server and the research callback of the unified server do the same
    work for each of the four tools: they cause the same events, they fail on
    the same inputs with the same message (as an error result and as a thrown
    error), and when they succeed the handler's text is the very answer the
    callback returns as the structured [response]. *)
Theorem research_servers_agree :
  forall (toolName model : string) (env : ProcessEnv)
         (fields : list (string * value)) (up : upstream),
    In (toolName, model) Unified.perplexityModels ->
    snd (Sse.perplexity_call env toolName (JObj fields) up)
    = snd (Unified.callback (Unified.perplexity_tool (toolName, model))
             env (JObj fields) up)
    /\ match fst (Unified.callback (Unified.perplexity_tool (toolName, model))
                    env (JObj fields) up) with
       | Throw message =>
           fst (Sse.perplexity_call env toolName (JObj fields) up)
           = Ret (Sse.error_result message)
       | Ret result =>
           exists answer,
             structuredContent result = Some (JObj [("response", answer)])
             /\ fst (Sse.perplexity_call env toolName (JObj fields) up)
                = Ret (Sse.text_result answer)
       end.
Proof.
  intros toolName model env fields up Hin.
  unfold Sse.perplexity_call. rewrite try_catch_error_result.
  rewrite (own_model toolName model Hin).
  unfold_callbacks. cbn [destructure truthy negb].
  destruct (falsy (PERPLEXITY_API_KEY env)); [split; reflexivity | ].
  assert (Hmodel : (model =? "") = false).
  { simpl in Hin.
    destruct Hin as [H | [H | [H | [H | []]]]]; injection H as _ <-;
      reflexivity. }
  rewrite Hmodel. cbn [negb]. step_calls; split; try reflexivity;
    eexists; split; reflexivity.
Qed.

Lemma research_servers_agree_witness :
  fst (Sse.perplexity_call Samples.env_full "perplexity_reason"
         (JObj [("query", JStr "hello")]) Samples.up_chat)
  = Ret (Sse.text_result (JStr "42")).
Proof.
  destruct (research_servers_agree
              "perplexity_reason" "sonar-reasoning-pro" Samples.env_full
              [("query", JStr "hello")] Samples.up_chat)
    as [_ [answer [Hanswer Hcall]]].
  - simpl. auto.
  - injection Hanswer as <-. exact Hcall.
Defined.

(** X6. On an argument object the documentation handler and the
    documentation callbacks likewise agree for both tools: the same events,
    the same failures with the same message, and on success the handler's
    text is the serialization of the upstream payload that the callback
    returns inside its structured output (under [libraries] for
    resolve-library-id, under [documentation] for get-library-docs). *)
Theorem documentation_servers_agree :
  forall (tool : Unified.RegisteredTool) (env : ProcessEnv)
         (fields : list (string * value)) (up : upstream),
    In tool (Unified.group Context7) ->
    snd (Sse.context7_call env (Unified.name tool) (JObj fields) up)
    = snd (Unified.callback tool env (JObj fields) up)
    /\ match fst (Unified.callback tool env (JObj fields) up) with
       | Throw message =>
           fst (Sse.context7_call env (Unified.name tool) (JObj fields) up)
           = Ret (Sse.error_result message)
       | Ret result =>
           exists key payload,
             structuredContent result = Some (JObj [(key, payload)])
             /\ (key = "libraries" \/ key = "documentation")
             /\ fst (Sse.context7_call env (Unified.name tool)
                       (JObj fields) up)
                = Ret (Sse.text_result
                         (of_optional_string (JSON_stringify_2 payload)))
       end.
Proof.
  intros tool env fields up Hin.
  destruct (group_cases Context7 tool Hin) as [-> | ->];
    unfold Sse.context7_call; rewrite try_catch_error_result.
  - change (Unified.name Unified.resolve_library_id
            =? "mcp__context7__resolve-library-id") with true.
    unfold_callbacks.
    (destruct (falsy (CONTEXT7_API_KEY env)); [split; reflexivity | ]).
    step_calls; split; try reflexivity;
      do 2 eexists; (split; [reflexivity | ]); split; auto.
  - change (Unified.name Unified.get_library_docs
            =? "mcp__context7__resolve-library-id") with false.
    change (Unified.name Unified.get_library_docs
            =? "mcp__context7__get-library-docs") with true.
    unfold_callbacks.
    (destruct (falsy (CONTEXT7_API_KEY env)); [split; reflexivity | ]).
    step_calls; split; try reflexivity;
      do 2 eexists; (split; [reflexivity | ]); split; auto.
Qed.

Lemma documentation_servers_agree_witness :
  snd (Sse.context7_call Samples.env_full "mcp__context7__get-library-docs"
         (JObj [("context7CompatibleLibraryID", JStr "/a/b")])
         Samples.up_down)
  = snd (Unified.callback Unified.get_library_docs Samples.env_full
           (JObj [("context7CompatibleLibraryID", JStr "/a/b")])
           Samples.up_down).
Proof.
  refine (proj1 (documentation_servers_agree
                   Unified.get_library_docs Samples.env_full
                   [("context7CompatibleLibraryID", JStr "/a/b")]
                   Samples.up_down _)).
  simpl. auto.
Defined.

(** *** Edge cases of the per-provider handlers *)

(** X7. The research handler looks the tool name up in an object literal, so
    a name that [Object.prototype] defines is not rejected as unknown: for
    each such name, none of which is a research tool, the handler with its
    credential configured and an argument object issues an upstream request,
    and the model in it is not a string. *)
Theorem inherited_names_pass_the_tool_check :
  forall (name : string) (env : ProcessEnv) (args : value) (up : upstream),
    In name inherited_functions \/ name = "__proto__" ->
    falsy (PERPLEXITY_API_KEY env) = false ->
    args <> JUndefined -> args <> JNull ->
    ~ In name (map fst Sse.modelMap)
    /\ exists request,
         requests (snd (Sse.perplexity_call env name args up)) = [request]
         /\ forall s, body_field "model" request <> JStr s.
Proof.
  intros name env args up Hname Hcred Hu Hn.
  destruct (destructure_defined args "query" Hu Hn) as [_ [query Hq]].
  assert (Hmodel : index_record Sse.modelMap name = JFunction
                   \/ index_record Sse.modelMap name = JObj []).
  { destruct Hname as [Hname | ->]; [ | right; reflexivity].
    simpl in Hname.
    repeat (destruct Hname as [<- | Hname]; [left; reflexivity | ]).
    destruct Hname. }
  split.
  { destruct Hname as [Hname | ->]; [ | simpl; intuition discriminate].
    simpl in Hname.
    repeat (destruct Hname as [<- | Hname];
            [simpl; intuition discriminate | ]).
    destruct Hname. }
  unfold Sse.perplexity_call. rewrite try_catch_error_result, Hcred.
  cbv zeta. destruct Hmodel as [-> | ->]; cbn [truthy negb];
    rewrite Hq; step_calls;
    (eexists; split; [reflexivity | intros s; discriminate]).
Qed.

Lemma inherited_names_pass_the_tool_check_witness :
  exists request,
    requests (snd (Sse.perplexity_call Samples.env_full "toString"
                     (JObj [("query", JStr "hello")]) Samples.up_chat))
    = [request]
    /\ forall s, body_field "model" request <> JStr s.
Proof.
  refine (proj2 (inherited_names_pass_the_tool_check
                   "toString" Samples.env_full
                   (JObj [("query", JStr "hello")]) Samples.up_chat
                   _ _ _ _)).
  - left. simpl. auto 10.
  - reflexivity.
  - discriminate.
  - discriminate.
Defined.

(** X8. A call without arguments never reaches the upstream on the
    documentation and research endpoints: when [arguments] is absent or
    null the handler returns a result marked "is error" and causes no event,
    whatever the tool name and the configuration. *)
Theorem missing_arguments_stop_before_upstream :
  forall (p : provider) (env : ProcessEnv) (name : string) (args : value)
         (up : upstream),
    p <> BrightData ->
    args = JUndefined \/ args = JNull ->
    exists result,
      Sse.call p env name args up = (Ret result, [])
      /\ isError result = true.
Proof.
  intros p env name args up Hp Hargs.
  destruct p; try congruence; unfold_handlers;
    rewrite try_catch_error_result;
    destruct Hargs as [-> | ->];
    (destruct (falsy _); [eexists; split; reflexivity | ]);
    cbv zeta;
    repeat match goal with
           | |- context [if ?c then _ else _] => destruct c
           end;
    eexists; split; reflexivity.
Qed.

Lemma missing_arguments_stop_before_upstream_witness :
  exists result,
    Sse.call Perplexity Samples.env_full "perplexity_ask" JUndefined
      Samples.up_chat = (Ret result, [])
    /\ isError result = true.
Proof.
  apply (missing_arguments_stop_before_upstream
           Perplexity Samples.env_full "perplexity_ask" JUndefined
           Samples.up_chat).
  - discriminate.
  - left. reflexivity.
Defined.

(** *** The batch tools *)

(** X9. The batch-scrape callback itself enforces no bound: with the token
    configured and [urls] an array of any length, empty included, it returns
    one [{url, status: 'scraped'}] entry per element, in order, as structured
    output and as its serialization, without any event. When [urls] is
    anything but an array it throws, so the invocation is a tool failure. *)
Theorem scrape_batch_maps_every_url :
  forall (env : ProcessEnv) (fields : list (string * value)) (up : upstream),
    falsy (BRIGHTDATA_API_TOKEN env) = false ->
    (forall items,
        field "urls" fields = JArr items ->
        let results :=
          map (fun url => JObj [("url", url); ("status", JStr "scraped")])
              items in
        Unified.callback Unified.scrape_batch env (JObj fields) up
        = (Ret (Unified.success
                  (JSON_stringify (JObj [("results", JArr results)]))
                  (JObj [("results", JArr results)])), [])
        /\ List.length results = List.length items)
    /\ ((forall items, field "urls" fields <> JArr items) ->
        exists message,
          Unified.callback Unified.scrape_batch env (JObj fields) up
          = (Throw message, [])).
Proof.
  intros env fields up Hcred.
  change (Unified.callback Unified.scrape_batch)
    with Unified.scrape_batch_callback.
  unfold Unified.scrape_batch_callback.
  cbn [destructure get_prop]. rewrite bind_lift. cbv beta iota.
  rewrite Hcred. fold (field "urls" fields).
  split.
  - intros items ->. cbv zeta. rewrite bind_lift.
    unfold Unified.array_map. rewrite map_outcome_total.
    split; [reflexivity | apply length_map].
  - intros Hnot. rewrite bind_lift.
    destruct (field "urls" fields) as [ | | b | n | s | items | fs | ];
      try (eexists; reflexivity).
    exfalso. apply (Hnot items). reflexivity.
Qed.

Lemma scrape_batch_maps_every_url_witness :
  Unified.callback Unified.scrape_batch Samples.env_full
    (JObj [("urls", JArr Samples.eleven_urls)]) Samples.up_chat
  = (Ret (Unified.success
            (JSON_stringify
               (JObj [("results",
                       JArr (map (fun url => JObj [("url", url);
                                                   ("status", JStr "scraped")])
                                 Samples.eleven_urls))]))
            (JObj [("results",
                    JArr (map (fun url => JObj [("url", url);
                                                ("status", JStr "scraped")])
                              Samples.eleven_urls))])), [])
  /\ List.length
       (map (fun url => JObj [("url", url); ("status", JStr "scraped")])
            Samples.eleven_urls) = 11%nat.
Proof.
  destruct (proj1 (scrape_batch_maps_every_url
                     Samples.env_full [("urls", JArr Samples.eleven_urls)]
                     Samples.up_chat eq_refl)
              Samples.eleven_urls eq_refl) as [Hcall Hlength].
  split; [exact Hcall | ]. rewrite Hlength. reflexivity.
Defined.

Lemma map_outcome_cons {A B : Type} (f : A -> outcome B) (x : A)
    (l : list A) :
  Unified.map_outcome f (x :: l)
  = match f x with
    | Throw e => Throw e
    | Ret y =>
        match Unified.map_outcome f l with
        | Throw e => Throw e
        | Ret ys => Ret (y :: ys)
        end
    end.
Proof. reflexivity. Qed.

(** The entry the batch-search callback builds for one query. *)
Lemma batch_entry_defined (q : value) :
  q <> JUndefined -> q <> JNull ->
  match get_prop q "query" with
  | Throw e => Throw e
  | Ret q_query =>
      match get_prop q "engine" with
      | Throw e => Throw e
      | Ret q_engine =>
          Ret (JObj [("query", q_query);
                     ("engine", or_else q_engine (JStr "google"))])
      end
  end
  = Ret (JObj [("query", Advertised.prop "query" q);
               ("engine",
                or_else (Advertised.prop "engine" q) (JStr "google"))]).
Proof.
  intros Hu Hn. destruct q; try congruence; reflexivity.
Qed.

Lemma batch_entries_defined (items : list value) :
  Forall (fun q => q <> JUndefined /\ q <> JNull) items ->
  Unified.map_outcome
    (fun q =>
       match get_prop q "query" with
       | Throw e => Throw e
       | Ret q_query =>
           match get_prop q "engine" with
           | Throw e => Throw e
           | Ret q_engine =>
               Ret (JObj [("query", q_query);
                          ("engine", or_else q_engine (JStr "google"))])
           end
       end) items
  = Ret (map (fun q =>
                JObj [("query", Advertised.prop "query" q);
                      ("engine",
                       or_else (Advertised.prop "engine" q) (JStr "google"))])
             items).
Proof.
  induction 1 as [ | q l [Hu Hn] _ IH]; [reflexivity | ].
  rewrite map_outcome_cons, (batch_entry_defined q Hu Hn), IH. reflexivity.
Qed.

(** X10. The batch-search callback, with the token configured and [queries]
    an array: when no element is null or undefined it returns one
    [{query, engine}] entry per element, in order, where a missing (or
    otherwise falsy) engine becomes 'google' and any other engine is kept;
    when some element is null or undefined it throws and returns no partial
    result. In both cases it causes no event. *)
Theorem search_engine_batch_defaults_each_engine :
  forall (env : ProcessEnv) (fields : list (string * value))
         (items : list value) (up : upstream),
    falsy (BRIGHTDATA_API_TOKEN env) = false ->
    field "queries" fields = JArr items ->
    (Forall (fun q => q <> JUndefined /\ q <> JNull) items ->
     let results :=
       map (fun q =>
              JObj [("query", Advertised.prop "query" q);
                    ("engine",
                     or_else (Advertised.prop "engine" q) (JStr "google"))])
           items in
     Unified.callback Unified.search_engine_batch env (JObj fields) up
     = (Ret (Unified.success
               (JSON_stringify (JObj [("results", JArr results)]))
               (JObj [("results", JArr results)])), []))
    /\ (Exists (fun q => q = JUndefined \/ q = JNull) items ->
        exists message,
          Unified.callback Unified.search_engine_batch env (JObj fields) up
          = (Throw message, [])).
Proof.
  intros env fields items up Hcred Hqueries.
  change (Unified.callback Unified.search_engine_batch)
    with Unified.search_engine_batch_callback.
  unfold Unified.search_engine_batch_callback.
  cbn [destructure get_prop]. rewrite bind_lift. cbv beta iota.
  rewrite Hcred. fold (field "queries" fields). rewrite Hqueries.
  rewrite bind_lift. unfold Unified.array_map.
  split.
  - intros Hall. cbv zeta. rewrite (batch_entries_defined items Hall).
    reflexivity.
  - intros Hsome.
    match goal with
    | |- context [Unified.map_outcome ?f items] =>
        assert (Hmap : exists message,
                   Unified.map_outcome f items = Throw message)
    end.
    { clear Hqueries.
      induction Hsome as [q l Hq | q l _ IH].
      - rewrite map_outcome_cons.
        destruct Hq as [-> | ->]; eexists; reflexivity.
      - rewrite map_outcome_cons. destruct IH as [message ->].
        match goal with
        | |- context [match ?o with Ret _ => _ | Throw _ => _ end] =>
            destruct o as [y | e]
        end; eexists; reflexivity. }
    destruct Hmap as [message ->]. eexists. reflexivity.
Qed.

Lemma search_engine_batch_defaults_each_engine_witness :
  fst (Unified.callback Unified.search_engine_batch Samples.env_full
         (JObj [("queries",
                 JArr [JObj [("query", JStr "a")];
                       JObj [("query", JStr "b"); ("engine", JStr "bing")]])])
         Samples.up_chat)
  = Ret (Unified.success
           (JSON_stringify
              (JObj [("results",
                      JArr [JObj [("query", JStr "a");
                                  ("engine", JStr "google")];
                            JObj [("query", JStr "b");
                                  ("engine", JStr "bing")]])]))
           (JObj [("results",
                   JArr [JObj [("query", JStr "a"); ("engine", JStr "google")];
                         JObj [("query", JStr "b");
                               ("engine", JStr "bing")]])])).
Proof.
  rewrite (proj1 (search_engine_batch_defaults_each_engine
                    Samples.env_full
                    [("queries",
                      JArr [JObj [("query", JStr "a")];
                            JObj [("query", JStr "b");
                                  ("engine", JStr "bing")]])]
                    [JObj [("query", JStr "a")];
                     JObj [("query", JStr "b"); ("engine", JStr "bing")]]
                    Samples.up_chat eq_refl eq_refl)).
  - reflexivity.
  - repeat constructor; discriminate.
Defined.

(** *** Schemas and callbacks together *)

Lemma field_is_array (fields : list (string * value)) (k : string)
    (items : list value) :
  field k fields = JArr items -> assoc k fields = Some (JArr items).
Proof.
  unfold field. destruct (assoc k fields); [intros -> | discriminate].
  reflexivity.
Qed.

(** X11. The input schemas of the web-data tools are strong enough for their
    callbacks: on any argument value its tool's schema accepts, with the
    token configured, each of the four callbacks returns a result that is not
    marked "is error", without throwing and without any event. *)
Theorem validated_web_data_calls_succeed :
  forall (is_url : string -> bool) (tool : Unified.RegisteredTool)
         (env : ProcessEnv) (args : value) (up : upstream),
    In tool (Unified.group BrightData) ->
    accepts is_url (ZObject (Unified.inputSchema tool)) args = true ->
    falsy (BRIGHTDATA_API_TOKEN env) = false ->
    exists result,
      Unified.callback tool env args up = (Ret result, [])
      /\ isError result = false.
Proof.
  intros is_url tool env args up Hin Hacc Hcred.
  destruct (accepted_arguments_are_objects _ _ _ Hacc) as [fields ->].
  destruct (group_cases BrightData tool Hin) as [-> | [-> | [-> | ->]]].
  - unfold_callbacks. step_calls. rewrite Hcred. eexists. split; reflexivity.
  - unfold_callbacks. step_calls. rewrite Hcred. eexists. split; reflexivity.
  - simpl in Hacc. rewrite andb_true_r in Hacc.
    destruct (field "urls" fields) as [ | | b | n | s | items | fs | ] eqn:Hurls;
      try discriminate Hacc.
    change (Unified.callback Unified.scrape_batch)
      with Unified.scrape_batch_callback.
    rewrite (scrape_batch_on_array env fields items up
               (field_is_array _ _ _ Hurls)), Hcred.
    eexists. split; reflexivity.
  - simpl in Hacc. rewrite andb_true_r in Hacc.
    destruct (field "queries" fields)
      as [ | | b | n | s | items | fs | ] eqn:Hqueries;
      try discriminate Hacc.
    apply andb_true_iff in Hacc. destruct Hacc as [Hall _].
    assert (Hdefined : Forall (fun q => q <> JUndefined /\ q <> JNull) items).
    { apply Forall_forall. intros q Hq.
      rewrite forallb_forall in Hall. specialize (Hall q Hq).
      destruct q; try discriminate Hall; split; discriminate. }
    change (Unified.callback Unified.search_engine_batch)
      with Unified.search_engine_batch_callback.
    unfold Unified.search_engine_batch_callback.
    cbn [destructure get_prop]. rewrite bind_lift. cbv beta iota.
    rewrite Hcred. fold (field "queries" fields). rewrite Hqueries.
    rewrite bind_lift. unfold Unified.array_map.
    rewrite (batch_entries_defined items Hdefined).
    eexists. split; reflexivity.
Qed.

Lemma validated_web_data_calls_succeed_witness :
  exists result,
    Unified.callback Unified.scrape_batch Samples.env_full
      (JObj [("urls", JArr Samples.ten_urls)]) Samples.up_down
    = (Ret result, [])
    /\ isError result = false.
Proof.
  apply (validated_web_data_calls_succeed Samples.has_scheme).
  - simpl. auto.
  - reflexivity.
  - reflexivity.
Defined.

(** *** What the endpoints advertise *)

(** X12. The two servers advertise the same call signatures. For each
    provider, the tools the per-provider endpoint lists and the tools the
    unified server registers for that group agree, tool by tool and in the
    same order, on the tool name, on the argument names, on which arguments
    are required (those whose unified schema is not optional) and on the
    array bounds (maxItems against [.max]). *)
Theorem endpoints_advertise_registered_signatures :
  forall p : provider,
    map Advertised.advertised_signature
        (Advertised.elements
           (Advertised.prop "tools" (Advertised.ListTools p)))
    = map Advertised.registered_signature (Unified.group p).
Proof. intros p. destruct p; reflexivity. Qed.

(** *** The last-resort error response *)



(** *** Configuration *)

(** X14. Each per-provider handler reads only its own credential: two
    environments that agree on the credential of the endpoint's provider give
    the same result and the same events for every tool name, argument value
    and upstream, whatever the other two credentials are. *)
Theorem handler_depends_on_own_credential_only :
  forall (p : provider) (env1 env2 : ProcessEnv) (name : string)
         (args : value) (up : upstream),
    credential p env1 = credential p env2 ->
    Sse.call p env1 name args up = Sse.call p env2 name args up.
Proof.
  intros p env1 env2 name args up Hcred.
  destruct p; simpl in Hcred; unfold_handlers; rewrite Hcred; reflexivity.
Qed.

Lemma handler_depends_on_own_credential_only_witness :
  Sse.call Context7 Samples.env_full "mcp__context7__resolve-library-id"
    (JObj [("libraryName", JStr "react")]) Samples.up_results_object
  = Sse.call Context7 Samples.env_context7_only
      "mcp__context7__resolve-library-id"
      (JObj [("libraryName", JStr "react")]) Samples.up_results_object.
Proof.
  apply (handler_depends_on_own_credential_only Context7). reflexivity.
Defined.

(** X15. A credential set to the empty string counts as not configured: on
    both servers an invocation behaves exactly as with the variable unset,
    with the same outcome and the same (empty) events. *)
Theorem empty_credential_is_missing :
  forall (p : provider) (tool : Unified.RegisteredTool)
         (env_empty env_unset : ProcessEnv) (name : string) (args : value)
         (up : upstream),
    In tool (Unified.group p) ->
    credential p env_empty = Some "" ->
    credential p env_unset = None ->
    Unified.callback tool env_empty args up
    = Unified.callback tool env_unset args up
    /\ Sse.call p env_empty name args up = Sse.call p env_unset name args up.
Proof.
  intros p tool env_empty env_unset name args up Hin Hempty Hunset. split.
  - each_tool Hin; simpl in Hempty, Hunset; unfold_callbacks;
      rewrite Hempty, Hunset; reflexivity.
  - clear Hin. destruct p; simpl in Hempty, Hunset; unfold_handlers;
      rewrite Hempty, Hunset; reflexivity.
Qed.

Lemma empty_credential_is_missing_witness :
  Sse.call Perplexity
    {| CONTEXT7_API_KEY := None;
       PERPLEXITY_API_KEY := Some "";
       BRIGHTDATA_API_TOKEN := None |}
    "perplexity_ask" (JObj [("query", JStr "hello")]) Samples.up_chat
  = Sse.call Perplexity Samples.env_empty "perplexity_ask"
      (JObj [("query", JStr "hello")]) Samples.up_chat.
Proof.
  refine (proj2 (empty_credential_is_missing
                   Perplexity
                   (Unified.perplexity_tool ("perplexity_ask", "sonar-pro"))
                   {| CONTEXT7_API_KEY := None;
                      PERPLEXITY_API_KEY := Some "";
                      BRIGHTDATA_API_TOKEN := None |}
                   Samples.env_empty "perplexity_ask"
                   (JObj [("query", JStr "hello")]) Samples.up_chat
                   _ _ _)).
  - simpl. auto.
  - reflexivity.
  - reflexivity.
Defined.
